(** * Endpoint resolution of the registry service (registry/service.go)

    A shallow embedding of [Service.lookupEndpoints], [LookupPullEndpoints],
    [LookupPushEndpoints], [TLSConfig] and [tlsConfigForMirror].

    Go values are modelled as follows.
    - [string] is Go's byte string; indices and lengths are counted in bytes.
    - [int] is [Z].
    - [*tls.Config] is an address into a heap of [tls.Config] values, so that
      two endpoints holding the same pointer are distinguished from two
      endpoints holding equal copies.
    - A function returning [(v, err)] whose callers only test [err] returns
      [result]; the three lookup functions keep Go's pair, because their
      callers observe both components.
    - The file [/tmp/myDocker.log] written by [lookupEndpoints] is part of the
      state that every operation threads through. *)

From Stdlib Require Import String Ascii List ZArith Bool Lia.
Import ListNotations.
Open Scope string_scope.
Open Scope list_scope.

(** ** Strings (package [strings] and slicing) *)

Module strings.

(** [len(s) >= len(prefix) && s[0:len(prefix)] == prefix] *)
Definition HasPrefix (s prefix : string) : bool :=
    (String.length prefix <=? String.length s)%nat
    && String.eqb (substring 0 (String.length prefix) s) prefix.

(** Byte index of the first occurrence of [c] in [s], or [-1]. *)
Fixpoint IndexByte (s : string) (c : ascii) : Z :=
    match s with
    | EmptyString => (-1)%Z
    | String d s' =>
        if Ascii.eqb d c then 0%Z
        else let i := IndexByte s' c in
             if (i <? 0)%Z then (-1)%Z else (i + 1)%Z
    end.

(** For a rune below [utf8.RuneSelf], [IndexRune] is [IndexByte]; the only
    rune searched for in this file is ['/'] (47). *)
Definition IndexRune (s : string) (r : ascii) : Z := IndexByte s r.

End strings.

(** [s[:n]] for [0 <= n <= len(s)]. *)
Definition slice_to (s : string) (n : Z) : string := substring 0 (Z.to_nat n) s.

(** ** Errors *)

(** The dynamic kinds of [error] that reach the callers of this file:
    the value built by [fmt.Errorf], and the errors of the libraries. *)
Inductive error : Type :=
| errorString (msg : string)
| url_Error (msg : string)
| certs_Error (msg : string).

Inductive result (A : Type) : Type :=
| Ok (a : A)
| Err (e : error).
Arguments Ok {A} a.
Arguments Err {A} e.

Module fmt.
(** [fmt.Errorf(prefix + "%s", arg)]: the one verb used is [%s] on a
    string, at the end of the format. *)
Definition Errorf_s (prefix arg : string) : error := errorString (prefix ++ arg)%string.
End fmt.

(** ** Library types *)

Module tls.
(** The fields of [crypto/tls.Config] that the registry package sets. *)
Record Config : Type := {
    InsecureSkipVerify : bool;
    MinVersion : Z;
    PreferServerCipherSuites : bool;
    CipherSuites : list Z;
    RootCAs : list string;
    Certificates : list string
  }.
End tls.

Module url.
Record URL : Type := {
    Scheme : string;
    Host : string;
    Path : string
  }.
End url.

Module auth.
(** [auth.APIVersion] of docker/distribution: [Type] and [Version]. *)
Record APIVersion : Type := {
    Type_ : string;
    Version : string
  }.
End auth.

(** [type APIVersion int], with the two generations of the registry API. *)
Inductive APIVersion : Type :=
| APIVersion1
| APIVersion2.

(** Address of a [tls.Config] on the heap. *)
Definition ptr : Type := nat.

(** [APIEndpoint] represents a remote API endpoint. *)
Record APIEndpoint : Type := {
  Mirror : bool;
  URL : string;
  Version : APIVersion;
  Official : bool;
  TrimHostname : bool;
  TLSConfig : ptr;
  VersionHeader : string;
  Versions : list auth.APIVersion
}.

(** ** The state threaded through a call *)

(** Argument of a [logger.Printf] call with one [%v] verb. *)
Inductive LogArg : Type :=
| ArgString (s : string)
| ArgEndpoints (endpoints : list APIEndpoint).

(** One line of the log: the format and its argument.  The date, time and
    source position that [log.Ldate|log.Ltime|log.Llongfile] put in front of
    it are left out. *)
Record LogRecord : Type := {
  logFormat : string;
  logArgument : LogArg
}.

Record World : Type := {
  heap : list tls.Config;
(** whether [os.OpenFile] on [/tmp/myDocker.log] succeeds *)
  logOpenable : bool;
(** the lines of [/tmp/myDocker.log] *)
  logLines : list LogRecord
}.

Definition M (A : Type) : Type := World -> A * World.

Definition ret {A : Type} (a : A) : M A := fun w => (a, w).

Definition bind {A B : Type} (m : M A) (k : A -> M B) : M B :=
  fun w => let (a, w') := m w in k a w'.

Declare Scope go_scope.
Delimit Scope go_scope with go.
Notation "x <- m ;; k" := (bind m (fun x => k))
  (at level 61, m at next level, right associativity) : go_scope.
Notation "m ;; k" := (bind m (fun _ => k))
  (at level 61, right associativity) : go_scope.
Open Scope go_scope.

(** [p := &v] for a fresh variable [v]: a new cell at the end of the heap. *)
Definition new (v : tls.Config) : M ptr :=
  fun w => (List.length (heap w),
            {| heap := heap w ++ [v];
               logOpenable := logOpenable w;
               logLines := logLines w |}).

Definition deref (w : World) (p : ptr) : option tls.Config := nth_error (heap w) p.

(** [p.InsecureSkipVerify].  Every address read in this file was handed out
    by [new] before, so the cell exists; the default stands for no case of
    the program. *)
Definition load_InsecureSkipVerify (p : ptr) : M bool :=
  fun w => (match deref w p with
            | Some c => tls.InsecureSkipVerify c
            | None => false
            end, w).

(** ** The log file *)

(** [*os.File]: [None] is the nil file that a failed [os.OpenFile] leaves. *)
Inductive File : Type := tmp_myDocker_log.

Record Logger : Type := { out : option File }.

Module os.
(** [os.OpenFile("/tmp/myDocker.log", O_RDWR|O_CREATE|O_APPEND, 0666)],
    its error dropped. *)
Definition OpenFile_log : M (option File) :=
    fun w => (if logOpenable w then Some tmp_myDocker_log else None, w).
End os.

Module log.
Definition New (f : option File) : Logger := {| out := f |}.

(** A write to the nil file fails and [Printf] drops the failure. *)
Definition Printf (l : Logger) (format : string) (a : LogArg) : M unit :=
    fun w =>
      match out l with
      | Some tmp_myDocker_log =>
          (tt, {| heap := heap w;
                  logOpenable := logOpenable w;
                  logLines := logLines w ++ [ {| logFormat := format; logArgument := a |} ] |})
      | None => (tt, w)
      end.
End log.

(** ** What the file takes from the rest of the package and from libraries

    [ServiceConfig], [isSecureIndex], [newTLSConfig] and the [Default...]
    constants are declared in other files of package [registry];
    [tlsconfig.ServerDefault], [url.Parse] and [runtime.GOOS] come from
    libraries.  The functions are taken as functions of their arguments: the
    classification and the certificate material they read do not change
    during a call. *)
Class Externals : Type := {
  ServiceConfig : Type;
  (** field [Mirrors []string] of [ServiceConfig] *)
  Mirrors : ServiceConfig -> list string;
  (** method [isSecureIndex] of [*ServiceConfig] *)
  isSecureIndex : ServiceConfig -> string -> bool;
  (** the [tls.Config] that [newTLSConfig(hostname, isSecure)] builds, or its
      error *)
  newTLSConfig_value : string -> bool -> result tls.Config;
  url_Parse : string -> result url.URL;
  tlsconfig_ServerDefault : tls.Config;
  DefaultV2Registry : string;
  DefaultV1Registry : string;
  DefaultRegistryVersionHeader : string;
  runtime_GOOS : string
}.

(** Modelled from the spec: the constant [DefaultNamespace] is declared
    outside this file; the spec gives the default namespace prefix as
    [library]. *)
Definition DefaultNamespace : string := "library".

Section Registry.

Context {ext : Externals}.

(** [Service] is a registry service.  It tracks configuration data such as a
    list of mirrors. *)
Record Service : Type := { Config : ServiceConfig }.

(** Modelled from the spec: [newTLSConfig] is declared outside this file.  A
    trust policy is computed on demand and not cached, so a successful call
    hands back the address of a fresh [tls.Config]. *)
Definition newTLSConfig (hostname : string) (isSecure : bool) : M (result ptr) :=
  match newTLSConfig_value hostname isSecure with
  | Err e => ret (Err e)
  | Ok c => p <- new c ;; ret (Ok p)
  end.

(** [TLSConfig] constructs a client TLS configuration based on server
    defaults. *)
Definition Service_TLSConfig (s : Service) (hostname : string) : M (result ptr) :=
  newTLSConfig hostname (isSecureIndex (Config s) hostname).

Definition tlsConfigForMirror (s : Service) (mirror : string) : M (result ptr) :=
  match url_Parse mirror with
  | Err err => ret (Err err)
  | Ok mirrorURL => Service_TLSConfig s (url.Host mirrorURL)
  end.

(** The [for _, mirror := range s.Config.Mirrors] loop of [lookupEndpoints],
    started with the candidates collected so far.  A failing mirror leaves
    the function with [return nil, err]. *)
Fixpoint mirrorLoop (s : Service) (logger : Logger) (mirrors : list string)
    (endpoints : list APIEndpoint) : M (list APIEndpoint * option error) :=
  match mirrors with
  | [] => ret (endpoints, None)
  | mirror :: rest =>
      r <- tlsConfigForMirror s mirror ;;
      match r with
      | Err err => ret ([], Some err)
      | Ok mirrorTLSConfig =>
          log.Printf logger "endpoints append mirror: %v" (ArgString mirror) ;;
          mirrorLoop s logger rest
            (endpoints ++ [ {| URL := mirror;
                               Version := APIVersion2;
                               Mirror := true;
                               TrimHostname := true;
                               TLSConfig := mirrorTLSConfig;
                               Official := false;
                               VersionHeader := "";
                               Versions := [] |} ])
      end
  end.

Definition v2Versions : list auth.APIVersion :=
  [ {| auth.Type_ := "registry"; auth.Version := "2.0" |} ].

Definition lookupEndpoints (s : Service) (repoName : string)
    : M (list APIEndpoint * option error) :=
  tlsConfig <- new tlsconfig_ServerDefault ;;
  logFile <- os.OpenFile_log ;;
  (* defer logFile.Close(): the descriptor is no part of the state *)
  let logger := log.New logFile in
  log.Printf logger "repoName is %v\n" (ArgString repoName) ;;
  (* v2 mirrors *)
  r <- mirrorLoop s logger (Mirrors (Config s)) [] ;;
  match r with
  | (_, Some err) => ret ([], Some err)
  | (endpoints, None) =>
      if strings.HasPrefix repoName (DefaultNamespace ++ "/")%string then
        (* v2 registry *)
        log.Printf logger "endpoints append default v2 registry: %v"
          (ArgString DefaultV2Registry) ;;
        let endpoints := endpoints ++ [ {| URL := DefaultV2Registry;
                                           Version := APIVersion2;
                                           Official := true;
                                           TrimHostname := true;
                                           TLSConfig := tlsConfig;
                                           Mirror := false;
                                           VersionHeader := "";
                                           Versions := [] |} ] in
        endpoints <-
          (if String.eqb runtime_GOOS "linux" then
             (* v1 registry *)
             log.Printf logger "endpoints append default v1 registry: %v"
               (ArgString DefaultV1Registry) ;;
             ret (endpoints ++ [ {| URL := DefaultV1Registry;
                                    Version := APIVersion1;
                                    Official := true;
                                    TrimHostname := true;
                                    TLSConfig := tlsConfig;
                                    Mirror := false;
                                    VersionHeader := "";
                                    Versions := [] |} ])
           else ret endpoints) ;;
        log.Printf logger "final endpoints: %v" (ArgEndpoints endpoints) ;;
        ret (endpoints, None)
      else
        let slashIndex := strings.IndexRune repoName "/"%char in
        if (slashIndex <=? 0)%Z then
          ret ([], Some (fmt.Errorf_s "invalid repo name: missing '/':  " repoName))
        else
          let hostname := slice_to repoName slashIndex in
          r <- Service_TLSConfig s hostname ;;
          match r with
          | Err err => ret ([], Some err)
          | Ok tlsConfig =>
              skipVerify <- load_InsecureSkipVerify tlsConfig ;;
              let isSecure := negb skipVerify in
              log.Printf logger "endpoints append secure registry: %v"
                (ArgString ("https://" ++ hostname)%string) ;;
              let endpoints :=
                endpoints ++ [ {| URL := ("https://" ++ hostname)%string;
                                  Version := APIVersion2;
                                  TrimHostname := true;
                                  TLSConfig := tlsConfig;
                                  VersionHeader := DefaultRegistryVersionHeader;
                                  Versions := v2Versions;
                                  Mirror := false;
                                  Official := false |};
                               {| URL := ("https://" ++ hostname)%string;
                                  Version := APIVersion1;
                                  TrimHostname := true;
                                  TLSConfig := tlsConfig;
                                  Mirror := false;
                                  Official := false;
                                  VersionHeader := "";
                                  Versions := [] |} ] in
              endpoints <-
                (if negb isSecure then
                   log.Printf logger "endpoints append insecure registry: %v"
                     (ArgString ("http://" ++ hostname)%string) ;;
                   ret (endpoints ++ [ {| URL := ("http://" ++ hostname)%string;
                                          Version := APIVersion2;
                                          TrimHostname := true;
                                          TLSConfig := tlsConfig;
                                          VersionHeader := DefaultRegistryVersionHeader;
                                          Versions := v2Versions;
                                          Mirror := false;
                                          Official := false |};
                                       {| URL := ("http://" ++ hostname)%string;
                                          Version := APIVersion1;
                                          TrimHostname := true;
                                          TLSConfig := tlsConfig;
                                          Mirror := false;
                                          Official := false;
                                          VersionHeader := "";
                                          Versions := [] |} ])
                 else ret endpoints) ;;
              log.Printf logger "final endpoints: %v" (ArgEndpoints endpoints) ;;
              ret (endpoints, None)
          end
  end.

(** [LookupPullEndpoints] creates a list of endpoints to try to pull from, in
    order of preference.  It gives preference to v2 endpoints over v1,
    mirrors over the actual registry, and HTTPS over plain HTTP. *)
Definition LookupPullEndpoints (s : Service) (repoName : string)
    : M (list APIEndpoint * option error) :=
  lookupEndpoints s repoName.

(** The [for _, endpoint := range allEndpoints] loop of
    [LookupPushEndpoints]. *)
Fixpoint pushLoop (allEndpoints endpoints : list APIEndpoint) : list APIEndpoint :=
  match allEndpoints with
  | [] => endpoints
  | endpoint :: rest =>
      if negb (Mirror endpoint) then pushLoop rest (endpoints ++ [endpoint])
      else pushLoop rest endpoints
  end.

(** [LookupPushEndpoints] creates a list of endpoints to try to push to, in
    order of preference.  It gives preference to v2 endpoints over v1, and
    HTTPS over plain HTTP.  Mirrors are not included. *)
Definition LookupPushEndpoints (s : Service) (repoName : string)
    : M (list APIEndpoint * option error) :=
  r <- lookupEndpoints s repoName ;;
  let '(allEndpoints, err) := r in
  match err with
  | None => ret (pushLoop allEndpoints [], err)
  | Some _ => ret ([], err)
  end.

(** ** Reading a call's outcome

    The definitions below are not code of the service; they name what the
    statements about it speak of. *)

(** The policy value that [s.TLSConfig(hostname)] computes. *)
Definition trustPolicy (s : Service) (hostname : string) : result tls.Config :=
  newTLSConfig_value hostname (isSecureIndex (Config s) hostname).

(** The policy value that [s.tlsConfigForMirror(mirror)] computes: the
    policy of the host of the parsed mirror URL. *)
Definition mirrorPolicy (s : Service) (mirror : string) : result tls.Config :=
  match url_Parse mirror with
  | Err err => Err err
  | Ok mirrorURL => trustPolicy s (url.Host mirrorURL)
  end.

Definition mirrorResolves (s : Service) (mirror : string) : Prop :=
  exists c, mirrorPolicy s mirror = Ok c.

(** The error of the first mirror of [ms] whose policy fails, if any. *)
Fixpoint firstFailure (s : Service) (ms : list string) : option error :=
  match ms with
  | [] => None
  | m :: rest =>
      match mirrorPolicy s m with
      | Ok _ => firstFailure s rest
      | Err e => Some e
      end
  end.

(** The mirrors of [ms] in front of the first failing one, with their
    policies. *)
Fixpoint resolvedPrefix (s : Service) (ms : list string) : list (string * tls.Config) :=
  match ms with
  | [] => []
  | m :: rest =>
      match mirrorPolicy s m with
      | Ok c => (m, c) :: resolvedPrefix s rest
      | Err _ => []
      end
  end.

Definition mirrorCandidate (mirror : string) (p : ptr) : APIEndpoint :=
  {| URL := mirror;
     Version := APIVersion2;
     Mirror := true;
     TrimHostname := true;
     TLSConfig := p;
     Official := false;
     VersionHeader := "";
     Versions := [] |}.

(** Mirror candidates whose policies sit at consecutive addresses from
    [base]. *)
Fixpoint mirrorCandidates (base : ptr) (ms : list string) : list APIEndpoint :=
  match ms with
  | [] => []
  | m :: rest => mirrorCandidate m base :: mirrorCandidates (S base) rest
  end.

Definition officialCandidate (registry : string) (v : APIVersion) (p : ptr) : APIEndpoint :=
  {| URL := registry;
     Version := v;
     Official := true;
     TrimHostname := true;
     TLSConfig := p;
     Mirror := false;
     VersionHeader := "";
     Versions := [] |}.

(** The candidate for [scheme ++ hostname] that negotiates the API version. *)
Definition hostCandidateV2 (scheme hostname : string) (p : ptr) : APIEndpoint :=
  {| URL := (scheme ++ hostname)%string;
     Version := APIVersion2;
     TrimHostname := true;
     TLSConfig := p;
     VersionHeader := DefaultRegistryVersionHeader;
     Versions := [ {| auth.Type_ := "registry"; auth.Version := "2.0" |} ];
     Mirror := false;
     Official := false |}.

Definition hostCandidateV1 (scheme hostname : string) (p : ptr) : APIEndpoint :=
  {| URL := (scheme ++ hostname)%string;
     Version := APIVersion1;
     TrimHostname := true;
     TLSConfig := p;
     Mirror := false;
     Official := false;
     VersionHeader := "";
     Versions := [] |}.

(** The error of [lookupEndpoints] for a name without a host segment. *)
Definition invalidRepoName (repoName : string) : error :=
  errorString ("invalid repo name: missing '/':  " ++ repoName)%string.

(** [w] after allocating [cs] and, when the log file opens, appending
    [recs] to it. *)
Definition grow (w : World) (cs : list tls.Config) (recs : list LogRecord) : World :=
  {| heap := heap w ++ cs;
     logOpenable := logOpenable w;
     logLines := logLines w ++ (if logOpenable w then recs else []) |}.

Definition loggerOf (w : World) : Logger :=
  log.New (if logOpenable w then Some tmp_myDocker_log else None).

Definition logged (format : string) (a : LogArg) : LogRecord :=
  {| logFormat := format; logArgument := a |}.

Definition mirrorRecord (mirror : string) : LogRecord :=
  logged "endpoints append mirror: %v" (ArgString mirror).

(** An endpoint candidate with its trust policy read through the pointer:
    what a caller that follows [TLSConfig] sees. *)
Record Candidate : Type := {
  cMirror : bool;
  cURL : string;
  cVersion : APIVersion;
  cOfficial : bool;
  cTrimHostname : bool;
  cTrust : option tls.Config;
  cVersionHeader : string;
  cVersions : list auth.APIVersion
}.

Definition view (w : World) (e : APIEndpoint) : Candidate :=
  {| cMirror := Mirror e;
     cURL := URL e;
     cVersion := Version e;
     cOfficial := Official e;
     cTrimHostname := TrimHostname e;
     cTrust := deref w (TLSConfig e);
     cVersionHeader := VersionHeader e;
     cVersions := Versions e |}.

(** What a caller observes of a finished call: the candidates with their
    policies, and the error. *)
Definition observe (r : (list APIEndpoint * option error) * World)
    : list Candidate * option error :=
  (map (view (snd r)) (fst (fst r)), snd (fst r)).

(** The candidates that follow the mirrors for an official name. *)
Definition officialCandidates (p : ptr) : list APIEndpoint :=
  officialCandidate DefaultV2Registry APIVersion2 p
  :: (if String.eqb runtime_GOOS "linux"
      then [officialCandidate DefaultV1Registry APIVersion1 p] else []).

(** The candidates that follow the mirrors for a host whose policy sits at
    [p] and has [InsecureSkipVerify = skipVerify]. *)
Definition hostCandidates (hostname : string) (p : ptr) (skipVerify : bool)
    : list APIEndpoint :=
  [hostCandidateV2 "https://" hostname p; hostCandidateV1 "https://" hostname p]
  ++ (if skipVerify
      then [hostCandidateV2 "http://" hostname p; hostCandidateV1 "http://" hostname p]
      else []).

(** Result and final state of [lookupEndpoints], written without the
    monad: [lookupEndpoints_run] below proves the two equal. *)
Definition lookupOutcome (s : Service) (repoName : string) (w : World)
    : (list APIEndpoint * option error) * World :=
  let d := List.length (heap w) in
  let ms := Mirrors (Config s) in
  let pre := resolvedPrefix s ms in
  let cs := tlsconfig_ServerDefault :: map snd pre in
  let recs := logged "repoName is %v\n" (ArgString repoName)
              :: map mirrorRecord (map fst pre) in
  match firstFailure s ms with
  | Some e => (([], Some e), grow w cs recs)
  | None =>
      let mcs := mirrorCandidates (S d) ms in
      if strings.HasPrefix repoName (DefaultNamespace ++ "/")%string then
        let eps := mcs ++ officialCandidates d in
        ((eps, None),
         grow w cs
           (recs
            ++ logged "endpoints append default v2 registry: %v" (ArgString DefaultV2Registry)
            :: (if String.eqb runtime_GOOS "linux"
                then [logged "endpoints append default v1 registry: %v"
                        (ArgString DefaultV1Registry)]
                else [])
            ++ [logged "final endpoints: %v" (ArgEndpoints eps)]))
      else
        let slashIndex := strings.IndexRune repoName "/"%char in
        if (slashIndex <=? 0)%Z then (([], Some (invalidRepoName repoName)), grow w cs recs)
        else
          let hostname := slice_to repoName slashIndex in
          match trustPolicy s hostname with
          | Err e => (([], Some e), grow w cs recs)
          | Ok c =>
              let p := S d + List.length pre in
              let eps := mcs ++ hostCandidates hostname p (tls.InsecureSkipVerify c) in
              ((eps, None),
               grow w (cs ++ [c])
                 (recs
                  ++ logged "endpoints append secure registry: %v"
                       (ArgString ("https://" ++ hostname)%string)
                  :: (if tls.InsecureSkipVerify c
                      then [logged "endpoints append insecure registry: %v"
                              (ArgString ("http://" ++ hostname)%string)]
                      else [])
                  ++ [logged "final endpoints: %v" (ArgEndpoints eps)]))
          end
  end.

Definition mirrorsResolve (s : Service) : Prop :=
  Forall (mirrorResolves s) (Mirrors (Config s)).

(** [e] as a caller sees it when its pointer leads to [c]. *)
Definition withTrust (c : tls.Config) (e : APIEndpoint) : Candidate :=
  {| cMirror := Mirror e;
     cURL := URL e;
     cVersion := Version e;
     cOfficial := Official e;
     cTrimHostname := TrimHostname e;
     cTrust := Some c;
     cVersionHeader := VersionHeader e;
     cVersions := Versions e |}.

(** What a caller observes of [lookupEndpoints s repoName], as a function of
    the service and the name alone. *)
Definition expected (s : Service) (repoName : string) : list Candidate * option error :=
  let ms := Mirrors (Config s) in
  match firstFailure s ms with
  | Some e => ([], Some e)
  | None =>
      let mvs := map (fun mc => withTrust (snd mc) (mirrorCandidate (fst mc) 0))
                     (resolvedPrefix s ms) in
      if strings.HasPrefix repoName (DefaultNamespace ++ "/")%string then
        (mvs ++ map (withTrust tlsconfig_ServerDefault) (officialCandidates 0), None)
      else
        let slashIndex := strings.IndexRune repoName "/"%char in
        if (slashIndex <=? 0)%Z then ([], Some (invalidRepoName repoName))
        else
          let hostname := slice_to repoName slashIndex in
          match trustPolicy s hostname with
          | Err e => ([], Some e)
          | Ok c =>
              (mvs ++ map (withTrust c) (hostCandidates hostname 0 (tls.InsecureSkipVerify c)),
               None)
          end
  end.

(** [e] is the candidate of the configured [mirror], as [w] holds it: the
    mirror's URL, v2, flagged as a mirror, and a pointer to the policy
    resolved for the host of the mirror's URL. *)
Definition isMirrorCandidate (s : Service) (w : World) (mirror : string)
    (e : APIEndpoint) : Prop :=
  URL e = mirror /\ Version e = APIVersion2 /\ Mirror e = true /\
  TrimHostname e = true /\ Official e = false /\
  exists mirrorURL c,
    url_Parse mirror = Ok mirrorURL /\
    trustPolicy s (url.Host mirrorURL) = Ok c /\
    deref w (TLSConfig e) = Some c.

(** [c] occurs in [s]. *)
Fixpoint contains (s : string) (c : ascii) : bool :=
  match s with
  | EmptyString => false
  | String d s' => Ascii.eqb d c || contains s' c
  end.

End Registry.

(** ** A configuration to evaluate the functions on *)

Module Sample.

(** A [ServiceConfig] reduced to what this file reads: the mirrors and the
    hosts declared insecure. *)
Record Config : Type := {
  mirrors : list string;
  insecureRegistries : list string
}.

Definition isSecure (c : Config) (hostname : string) : bool :=
  negb (existsb (String.eqb hostname) (insecureRegistries c)).

Definition serverDefault : tls.Config :=
  {| tls.InsecureSkipVerify := false;
     tls.MinVersion := 769%Z;
     tls.PreferServerCipherSuites := true;
     tls.CipherSuites := [49195%Z; 49199%Z; 49161%Z; 49171%Z];
     tls.RootCAs := [];
     tls.Certificates := [] |}.

(** Trust policy of a host: server defaults, verification switched off for an
    insecure host, the certificates of the host's directory added for a
    secure one.  The directory of [badcerts.example.com] does not load. *)
Definition tlsConfigValue (hostname : string) (secure : bool) : result tls.Config :=
  if secure && String.eqb hostname "badcerts.example.com" then
    Err (certs_Error "badcerts.example.com: malformed certificate")
  else
    Ok {| tls.InsecureSkipVerify := negb secure;
          tls.MinVersion := tls.MinVersion serverDefault;
          tls.PreferServerCipherSuites := tls.PreferServerCipherSuites serverDefault;
          tls.CipherSuites := tls.CipherSuites serverDefault;
          tls.RootCAs := if secure && String.eqb hostname "private.example.com"
                         then ["private.example.com/ca.crt"] else [];
          tls.Certificates := [] |}.

Fixpoint drop (n : nat) (s : string) : string :=
  match n, s with
  | O, _ => s
  | S n', String _ s' => drop n' s'
  | S _, EmptyString => EmptyString
  end.

(** A reduced [url.Parse]: a scheme up to the first colon, then [//] and the
    host up to the next slash.  A string starting with a colon has no scheme
    and is refused, as [url.Parse] does. *)
Definition parse (rawurl : string) : result url.URL :=
  let i := strings.IndexByte rawurl ":"%char in
  if (i =? 0)%Z then Err (url_Error "missing protocol scheme")
  else if (i <? 0)%Z then Ok {| url.Scheme := ""; url.Host := ""; url.Path := rawurl |}
  else
    let rest := drop (Z.to_nat i + 1) rawurl in
    if strings.HasPrefix rest "//" then
      let authority := drop 2 rest in
      let j := strings.IndexByte authority "/"%char in
      if (j <? 0)%Z then
        Ok {| url.Scheme := slice_to rawurl i; url.Host := authority; url.Path := "" |}
      else
        Ok {| url.Scheme := slice_to rawurl i;
              url.Host := slice_to authority j;
              url.Path := drop (Z.to_nat j) authority |}
    else Ok {| url.Scheme := slice_to rawurl i; url.Host := ""; url.Path := rest |}.

Definition externals (goos : string) : Externals :=
  {| ServiceConfig := Config;
     Mirrors := mirrors;
     isSecureIndex := isSecure;
     newTLSConfig_value := tlsConfigValue;
     url_Parse := parse;
     tlsconfig_ServerDefault := serverDefault;
     DefaultV2Registry := "https://registry-1.docker.io";
     DefaultV1Registry := "https://index.docker.io";
     DefaultRegistryVersionHeader := "Docker-Distribution-Api-Version";
     runtime_GOOS := goos |}.

Definition linux : Externals := externals "linux".

Definition service (ms insecure : list string) : @Service linux :=
  @Build_Service linux {| mirrors := ms; insecureRegistries := insecure |}.

(** A process that has allocated nothing yet and whose log file is empty and
    can be opened. *)
Definition world0 : World := {| heap := []; logOpenable := true; logLines := [] |}.

(** Two mirrors, one of them over plain HTTP, and one insecure registry. *)
Definition mirrored : @Service linux :=
  service ["https://mirror.example.com"; "http://10.0.0.1:5000"] ["insecure.example.com"].

(** No mirror, no insecure registry. *)
Definition plain : @Service linux := service [] [].

(** The second mirror is a secure host whose certificates do not load. *)
Definition badMirror : @Service linux :=
  service ["https://mirror.example.com"; "https://badcerts.example.com";
           "https://other.example.com"] [].

(** The same mirrors, with one insecure registry. *)
Definition badMirrorInsecure : @Service linux :=
  service ["https://mirror.example.com"; "https://badcerts.example.com";
           "https://other.example.com"] ["insecure.example.com"].

(** The policy of a secure host without certificates of its own. *)
Definition verifying : tls.Config := serverDefault.

(** The policy of an insecure host. *)
Definition skipping : tls.Config :=
  {| tls.InsecureSkipVerify := true;
     tls.MinVersion := tls.MinVersion serverDefault;
     tls.PreferServerCipherSuites := tls.PreferServerCipherSuites serverDefault;
     tls.CipherSuites := tls.CipherSuites serverDefault;
     tls.RootCAs := [];
     tls.Certificates := [] |}.

End Sample.


(** ** Authentication (method [Auth])

    [Auth] resolves the index of the address in the caller's credentials,
    builds its endpoint and logs in.  The caller passes a pointer to the
    credentials, so the call hands them back as it leaves them. *)

(** What [Auth] takes from the rest of the package: [IndexServer],
    [NewIndexInfo], [NewEndpoint], [Endpoint.String] and [Login] are declared
    in other files, and so is [cliconfig.AuthConfig], of which this file
    touches the field [ServerAddress] alone.  [NewIndexInfo] is taken as a
    function of its arguments, like [isSecureIndex]; [NewEndpoint] and
    [Login] talk to the registry and thread the state of the outside. *)
Class AuthExternals {ext : Externals} : Type := {
  (** the fields of [cliconfig.AuthConfig] beside [ServerAddress] *)
  Credentials : Type;
  (** what [NewEndpoint] and [Login] act on *)
  Net : Type;
  IndexInfo : Type;
  Endpoint : Type;
  IndexServer : string;
  (** method [NewIndexInfo] of [*ServiceConfig] *)
  NewIndexInfo : ServiceConfig -> string -> result IndexInfo;
  (** [NewEndpoint(index, nil)] *)
  NewEndpoint : IndexInfo -> Net -> result Endpoint * Net;
  (** method [String] of [*Endpoint] *)
  Endpoint_String : Endpoint -> string
}.

Section Authentication.

Context {ext : Externals} {aext : AuthExternals}.

Record AuthConfig : Type := {
  ServerAddress : string;
  credentials : Credentials
}.

(** [authConfig.ServerAddress = addr] *)
Definition set_ServerAddress (addr : string) (authConfig : AuthConfig) : AuthConfig :=
  {| ServerAddress := addr; credentials := credentials authConfig |}.

(** [Login(authConfig, endpoint)], declared in another file: the status and
    the error it returns, the credentials as it leaves them, and the state
    of the outside. *)
Definition LoginFunction : Type :=
  AuthConfig -> Endpoint -> Net -> ((string * option error) * AuthConfig) * Net.

(** [ResolveIndex] takes indexName and returns index info. *)
Definition Service_ResolveIndex (s : Service) (name : string) : result IndexInfo :=
  NewIndexInfo (Config s) name.

(** [Auth] contacts the public registry with the provided credentials, and
    returns OK if authentication was successful. *)
Definition Service_Auth (Login : LoginFunction) (s : Service) (authConfig : AuthConfig)
    (net : Net) : ((string * option error) * AuthConfig) * Net :=
  let addr := ServerAddress authConfig in
  (* Use the official registry address if not specified. *)
  let addr := if String.eqb addr "" then IndexServer else addr in
  match Service_ResolveIndex s addr with
  | Err err => ((("", Some err), authConfig), net)
  | Ok index =>
      match NewEndpoint index net with
      | (Err err, net1) => ((("", Some err), authConfig), net1)
      | (Ok endpoint, net1) =>
          let authConfig := set_ServerAddress (Endpoint_String endpoint) authConfig in
          Login authConfig endpoint net1
      end
  end.

End Authentication.

(** A registry world to evaluate [Auth] on: index names are host names, an
    endpoint is the URL of the v1 API of its host, and the outside is the
    list of requests made so far. *)
Module SampleAuth.

Definition newIndexInfo (c : @ServiceConfig Sample.linux) (name : string) : result string :=
  if contains name " "%char then Err (errorString "Invalid index name")
  else Ok name.

Definition newEndpoint (index : string) (net : list string) : result string * list string :=
  if String.eqb index "down.example.com"
  then (Err (errorString "down.example.com: no route to host"),
        net ++ [("ping " ++ index)%string])
  else (Ok ("https://" ++ index ++ "/v1/")%string, net ++ [("ping " ++ index)%string]).

Definition externals : @AuthExternals Sample.linux :=
  {| Credentials := string * string;
     Net := list string;
     IndexInfo := string;
     Endpoint := string;
     IndexServer := "index.docker.io";
     NewIndexInfo := newIndexInfo;
     NewEndpoint := newEndpoint;
     Endpoint_String := fun e => e |}.

(** A login that accepts whoever asks and leaves the credentials alone. *)
Definition login : @LoginFunction Sample.linux externals :=
  fun authConfig endpoint net =>
    ((("Login Succeeded", None), authConfig), net ++ [("login " ++ endpoint)%string]).

Definition alice (addr : string) : @AuthConfig Sample.linux externals :=
  @Build_AuthConfig Sample.linux externals addr ("alice", "secret").

End SampleAuth.

(** * Properties *)

(** ** Strings *)

Lemma substring_0_append (a b : string) :
  substring 0 (String.length a) (a ++ b)%string = a.
Proof.
  induction a as [|c a IH]; simpl.
  - destruct b; reflexivity.
  - now rewrite IH.
Qed.

Lemma substring_0_split (n : nat) (s : string) :
  n <= String.length s ->
  exists rest, s = (substring 0 n s ++ rest)%string.
Proof.
  revert s; induction n as [|n IH]; intros s Hn.
  - exists s. destruct s; reflexivity.
  - destruct s as [|c s]; simpl in *; [lia|].
    destruct (IH s) as [rest Hrest]; [lia|].
    exists rest. now rewrite <- Hrest.
Qed.

Lemma length_append (a b : string) :
  String.length (a ++ b)%string = String.length a + String.length b.
Proof.
  induction a as [|c a IH]; simpl; [reflexivity | now rewrite IH].
Qed.

(** [HasPrefix] holds exactly of the strings that start with the prefix. *)
Lemma HasPrefix_iff (s prefix : string) :
  strings.HasPrefix s prefix = true <-> exists rest, s = (prefix ++ rest)%string.
Proof.
  unfold strings.HasPrefix. rewrite andb_true_iff, Nat.leb_le, String.eqb_eq.
  split.
  - intros [Hlen Hsub].
    destruct (substring_0_split _ _ Hlen) as [rest Hrest].
    exists rest. now rewrite Hsub in Hrest.
  - intros [rest ->]. split.
    + rewrite length_append. lia.
    + apply substring_0_append.
Qed.

Lemma IndexByte_absent (s : string) (c : ascii) :
  contains s c = false -> strings.IndexByte s c = (-1)%Z.
Proof.
  induction s as [|d s IH]; simpl; intros Hn; [reflexivity|].
  apply orb_false_iff in Hn as [Hd Hs].
  rewrite Hd, IH by assumption. reflexivity.
Qed.

(** The first [c] of [host ++ c :: rest], for a [host] free of [c], sits at
    index [len(host)]. *)
Lemma IndexByte_first (host rest : string) (c : ascii) :
  contains host c = false ->
  strings.IndexByte (host ++ String c rest) c = Z.of_nat (String.length host).
Proof.
  induction host as [|d host IH]; simpl; intros Hn.
  - now rewrite Ascii.eqb_refl.
  - apply orb_false_iff in Hn as [Hd Hs].
    rewrite Hd, IH by assumption.
    destruct (Z.ltb_spec (Z.of_nat (String.length host)) 0); lia.
Qed.

Lemma slice_to_host (host rest : string) :
  slice_to (host ++ rest) (Z.of_nat (String.length host)) = host.
Proof.
  unfold slice_to. rewrite Nat2Z.id. apply substring_0_append.
Qed.

(** ** Running the operations *)

Section Running.

Context {ext : Externals}.

Lemma grow_nil (w : World) : grow w [] [] = w.
Proof.
  destruct w as [h o l]; unfold grow; simpl.
  rewrite !app_nil_r. now destruct o; rewrite app_nil_r.
Qed.

Lemma grow_grow (w : World) (a c : list tls.Config) (b d : list LogRecord) :
  grow (grow w a b) c d = grow w (a ++ c) (b ++ d).
Proof.
  unfold grow; simpl. rewrite <- !app_assoc. now destruct (logOpenable w).
Qed.

Lemma new_run (c : tls.Config) (w : World) :
  new c w = (List.length (heap w), grow w [c] []).
Proof.
  unfold new, grow. do 2 f_equal. now destruct (logOpenable w); rewrite app_nil_r.
Qed.

Lemma Printf_run (w0 w : World) (format : string) (a : LogArg) :
  logOpenable w = logOpenable w0 ->
  log.Printf (loggerOf w0) format a w = (tt, grow w [] [logged format a]).
Proof.
  intros Ho. unfold log.Printf, loggerOf, grow, logged; simpl.
  rewrite Ho. destruct (logOpenable w0); simpl.
  - now rewrite app_nil_r.
  - destruct w as [h o l]; simpl in *. now rewrite !app_nil_r, Ho.
Qed.

Lemma deref_fresh (w : World) (pre post : list tls.Config) (c : tls.Config)
    (recs : list LogRecord) :
  deref (grow w (pre ++ c :: post) recs) (List.length (heap w) + List.length pre) = Some c.
Proof.
  unfold deref; simpl.
  rewrite app_assoc, nth_error_app2 by (rewrite length_app; lia).
  now rewrite length_app, Nat.sub_diag.
Qed.

Lemma Service_TLSConfig_run (s : Service) (hostname : string) (w : World) :
  Service_TLSConfig s hostname w =
  match trustPolicy s hostname with
  | Ok c => (Ok (List.length (heap w)), grow w [c] [])
  | Err e => (Err e, w)
  end.
Proof.
  unfold Service_TLSConfig, newTLSConfig, trustPolicy.
  destruct (newTLSConfig_value _ _); [|reflexivity].
  unfold bind. now rewrite new_run.
Qed.

Lemma tlsConfigForMirror_run (s : Service) (mirror : string) (w : World) :
  tlsConfigForMirror s mirror w =
  match mirrorPolicy s mirror with
  | Ok c => (Ok (List.length (heap w)), grow w [c] [])
  | Err e => (Err e, w)
  end.
Proof.
  unfold tlsConfigForMirror, mirrorPolicy.
  destruct (url_Parse mirror); [apply Service_TLSConfig_run | reflexivity].
Qed.

(** The mirror loop, run from any state with any candidates collected. *)
Lemma mirrorLoop_run (s : Service) (ms : list string) :
  forall (acc : list APIEndpoint) (w : World),
    mirrorLoop s (loggerOf w) ms acc w =
    (match firstFailure s ms with
     | Some e => ([], Some e)
     | None => (acc ++ mirrorCandidates (List.length (heap w)) ms, None)
     end,
     grow w (map snd (resolvedPrefix s ms))
            (map mirrorRecord (map fst (resolvedPrefix s ms)))).
Proof.
  induction ms as [|m ms IH]; intros acc w; simpl.
  - unfold ret. now rewrite app_nil_r, grow_nil.
  - unfold bind at 1. rewrite tlsConfigForMirror_run.
    destruct (mirrorPolicy s m) as [c|e]; simpl.
    + unfold bind. rewrite Printf_run by reflexivity.
      rewrite grow_grow.
      change (loggerOf w) with (loggerOf (grow w ([c] ++ []) ([] ++ [mirrorRecord m]))).
      rewrite IH, grow_grow. simpl.
      rewrite length_app, Nat.add_1_r. simpl.
      destruct (firstFailure s ms); [reflexivity|].
      now rewrite <- app_assoc.
    + unfold ret. now rewrite grow_nil.
Qed.

Lemma firstFailure_None (s : Service) (ms : list string) :
  firstFailure s ms = None <-> Forall (mirrorResolves s) ms.
Proof.
  induction ms as [|m ms IH]; simpl.
  - split; auto.
  - split.
    + destruct (mirrorPolicy s m) as [c|e] eqn:E; [|discriminate].
      intros H. constructor; [now exists c | now apply IH].
    + intros H. inversion H as [|? ? [c Hc] Hms]; subst.
      rewrite Hc. now apply IH.
Qed.

Lemma firstFailure_split (s : Service) (pre post : list string) (m : string) (e : error) :
  Forall (mirrorResolves s) pre -> mirrorPolicy s m = Err e ->
  firstFailure s (pre ++ m :: post) = Some e.
Proof.
  induction pre as [|a pre IH]; simpl; intros Hpre Hm.
  - now rewrite Hm.
  - inversion Hpre as [|? ? [c Hc] Hrest]; subst. rewrite Hc. auto.
Qed.

Lemma resolvedPrefix_all (s : Service) (ms : list string) :
  firstFailure s ms = None -> map fst (resolvedPrefix s ms) = ms.
Proof.
  induction ms as [|m ms IH]; simpl; [reflexivity|].
  destruct (mirrorPolicy s m); [|discriminate].
  intros H; simpl. now rewrite IH.
Qed.

Lemma heap_grow (w : World) (cs : list tls.Config) (recs : list LogRecord) :
  heap (grow w cs recs) = heap w ++ cs.
Proof. reflexivity. Qed.

Lemma bind_ret {A B : Type} (a : A) (k : A -> M B) (w : World) :
  bind (ret a) k w = k a w.
Proof. reflexivity. Qed.

Lemma bind_bind {A B C : Type} (m : M A) (k : A -> M B) (k' : B -> M C) (w : World) :
  bind (bind m k) k' w = bind m (fun a => bind (k a) k') w.
Proof. unfold bind. now destruct (m w). Qed.

Lemma bind_new {B : Type} (c : tls.Config) (k : ptr -> M B) (w : World) :
  bind (new c) k w = k (List.length (heap w)) (grow w [c] []).
Proof. unfold bind. now rewrite new_run. Qed.

Lemma bind_Printf {B : Type} (w0 w : World) (format : string) (a : LogArg)
    (k : unit -> M B) :
  logOpenable w = logOpenable w0 ->
  bind (log.Printf (loggerOf w0) format a) k w = k tt (grow w [] [logged format a]).
Proof. intros Ho. unfold bind. now rewrite Printf_run. Qed.

Lemma bind_load_fresh {B : Type} (w : World) (c : tls.Config) (k : bool -> M B) :
  bind (load_InsecureSkipVerify (List.length (heap w))) k (grow w [c] []) =
  k (tls.InsecureSkipVerify c) (grow w [c] []).
Proof.
  unfold bind, load_InsecureSkipVerify.
  replace (deref _ _) with (Some c); [reflexivity|].
  symmetry. generalize (deref_fresh w [] [] c []).
  now rewrite Nat.add_0_r.
Qed.

Ltac flatten_lists :=
  repeat progress (rewrite <- ?app_assoc, ?app_nil_r; simpl app).

Ltac run_logging :=
  repeat first [ rewrite bind_bind
               | rewrite bind_Printf by reflexivity
               | rewrite bind_ret
               | rewrite grow_grow ].

(** [lookupEndpoints] computes [lookupOutcome]. *)
Lemma lookupEndpoints_run (s : Service) (repoName : string) (w : World) :
  lookupEndpoints s repoName w = lookupOutcome s repoName w.
Proof.
  unfold lookupEndpoints, lookupOutcome.
  rewrite bind_new.
  unfold bind at 1. unfold os.OpenFile_log.
  change (log.New (if logOpenable (grow w [tlsconfig_ServerDefault] []) then _ else _))
    with (loggerOf w).
  rewrite bind_Printf by reflexivity. rewrite grow_grow.
  unfold bind at 1.
  set (w1 := grow w _ _).
  change (loggerOf w) with (loggerOf w1).
  rewrite mirrorLoop_run. subst w1. rewrite grow_grow, heap_grow. simpl app.
  rewrite length_app, Nat.add_1_r.
  destruct (firstFailure s (Mirrors (Config s))) as [e|]; [reflexivity|].
  change (loggerOf (grow _ _ _)) with (loggerOf w).
  destruct (strings.HasPrefix repoName _).
  - unfold officialCandidates.
    destruct (String.eqb runtime_GOOS "linux"); run_logging; unfold ret;
      now flatten_lists.
  - destruct (_ <=? 0)%Z; [reflexivity|].
    unfold bind at 1. rewrite Service_TLSConfig_run.
    destruct (trustPolicy s _) as [c|e]; [|reflexivity].
    rewrite bind_load_fresh, negb_involutive.
    unfold hostCandidates, hostCandidateV2, hostCandidateV1, v2Versions.
    rewrite heap_grow, length_app. simpl List.length. rewrite length_map.
    rewrite Nat.add_succ_r.
    destruct (tls.InsecureSkipVerify c); simpl negb; cbv iota;
      run_logging; unfold ret; now flatten_lists.
Qed.

(** ** The paths through [lookupEndpoints] *)

Lemma resolvedPrefix_length (s : Service) (ms : list string) :
  firstFailure s ms = None -> List.length (resolvedPrefix s ms) = List.length ms.
Proof.
  intros H. rewrite <- (resolvedPrefix_all s ms H) at 2. now rewrite length_map.
Qed.

(** In a heap that holds the mirrors' policies from address [len(hpre)] on,
    the candidates built at those addresses are the mirrors' candidates. *)
Lemma mirrorCandidates_trust (s : Service) (w' : World) (ms : list string) :
  forall hpre hpost,
    firstFailure s ms = None ->
    heap w' = hpre ++ map snd (resolvedPrefix s ms) ++ hpost ->
    Forall2 (isMirrorCandidate s w') ms (mirrorCandidates (List.length hpre) ms).
Proof.
  induction ms as [|m ms IH]; intros hpre hpost Hff Hheap; simpl in *; [constructor|].
  unfold mirrorPolicy in *.
  destruct (url_Parse m) as [u|] eqn:Hu; [|discriminate].
  destruct (trustPolicy s (url.Host u)) as [c|] eqn:Hc; [|discriminate].
  simpl in Hheap. constructor.
  - repeat split; simpl. exists u, c. repeat split; auto.
    unfold deref. rewrite Hheap, nth_error_app2, Nat.sub_diag by lia. reflexivity.
  - replace (S (List.length hpre)) with (List.length (hpre ++ [c]))
      by (rewrite length_app; simpl; lia).
    apply (IH _ hpost Hff). now rewrite <- app_assoc.
Qed.

Lemma mirrorCandidates_view (s : Service) (w' : World) (ms : list string) :
  forall hpre hpost,
    firstFailure s ms = None ->
    heap w' = hpre ++ map snd (resolvedPrefix s ms) ++ hpost ->
    map (view w') (mirrorCandidates (List.length hpre) ms) =
    map (fun mc => withTrust (snd mc) (mirrorCandidate (fst mc) 0)) (resolvedPrefix s ms).
Proof.
  induction ms as [|m ms IH]; intros hpre hpost Hff Hheap; simpl in *; [reflexivity|].
  destruct (mirrorPolicy s m) as [c|]; [|discriminate].
  simpl in *. f_equal.
  - unfold view, withTrust, deref; simpl.
    rewrite Hheap, nth_error_app2, Nat.sub_diag by lia. reflexivity.
  - replace (S (List.length hpre)) with (List.length (hpre ++ [c]))
      by (rewrite length_app; simpl; lia).
    apply (IH _ hpost Hff). now rewrite <- app_assoc.
Qed.

(** An official name, all mirrors resolving. *)
Lemma lookup_official (s : Service) (repoName : string) (w : World) :
  mirrorsResolve s ->
  strings.HasPrefix repoName (DefaultNamespace ++ "/")%string = true ->
  exists ms p w',
    lookupEndpoints s repoName w = ((ms ++ officialCandidates p, None), w') /\
    Forall2 (isMirrorCandidate s w') (Mirrors (Config s)) ms /\
    deref w' p = Some tlsconfig_ServerDefault.
Proof.
  intros Hm Hp. apply firstFailure_None in Hm.
  rewrite lookupEndpoints_run. unfold lookupOutcome. rewrite Hm, Hp.
  eexists _, _, _. split; [reflexivity|]. split.
  - replace (S (List.length (heap w)))
      with (List.length (heap w ++ [tlsconfig_ServerDefault]))
      by (rewrite length_app; simpl; lia).
    apply mirrorCandidates_trust with (hpost := []); [assumption|].
    rewrite heap_grow, app_nil_r, <- app_assoc. reflexivity.
  - generalize (deref_fresh w [] (map snd (resolvedPrefix s (Mirrors (Config s))))
                  tlsconfig_ServerDefault).
    simpl. rewrite Nat.add_0_r. auto.
Qed.

(** A name with a host segment, all mirrors and the host resolving. *)
Lemma lookup_host (s : Service) (repoName : string) (w : World) (c : tls.Config) :
  mirrorsResolve s ->
  strings.HasPrefix repoName (DefaultNamespace ++ "/")%string = false ->
  (0 < strings.IndexRune repoName "/"%char)%Z ->
  trustPolicy s (slice_to repoName (strings.IndexRune repoName "/"%char)) = Ok c ->
  exists ms p w',
    lookupEndpoints s repoName w =
    ((ms ++ hostCandidates (slice_to repoName (strings.IndexRune repoName "/"%char)) p
              (tls.InsecureSkipVerify c), None), w') /\
    Forall2 (isMirrorCandidate s w') (Mirrors (Config s)) ms /\
    deref w' p = Some c.
Proof.
  intros Hm Hp Hi Hc. apply firstFailure_None in Hm.
  rewrite lookupEndpoints_run. unfold lookupOutcome. rewrite Hm, Hp, Hc.
  destruct (Z.leb_spec (strings.IndexRune repoName "/"%char) 0); [lia|].
  eexists _, _, _. split; [reflexivity|]. split.
  - replace (S (List.length (heap w)))
      with (List.length (heap w ++ [tlsconfig_ServerDefault]))
      by (rewrite length_app; simpl; lia).
    apply mirrorCandidates_trust with (hpost := [c]); [assumption|].
    rewrite heap_grow, <- !app_assoc. reflexivity.
  - generalize (deref_fresh w
                  (tlsconfig_ServerDefault :: map snd (resolvedPrefix s (Mirrors (Config s))))
                  [] c).
    simpl. rewrite length_map, Nat.add_succ_r. auto.
Qed.

(** The cells that a call for a resolving host allocates: the copy of the
    server defaults, one policy per mirror, one policy for the host. *)
Lemma lookup_host_heap (s : Service) (repoName : string) (w : World) (c : tls.Config) :
  mirrorsResolve s ->
  strings.HasPrefix repoName (DefaultNamespace ++ "/")%string = false ->
  (0 < strings.IndexRune repoName "/"%char)%Z ->
  trustPolicy s (slice_to repoName (strings.IndexRune repoName "/"%char)) = Ok c ->
  heap (snd (lookupEndpoints s repoName w)) =
  heap w ++ (tlsconfig_ServerDefault :: map snd (resolvedPrefix s (Mirrors (Config s))))
         ++ [c].
Proof.
  intros Hm Hp Hi Hc. apply firstFailure_None in Hm.
  rewrite lookupEndpoints_run. unfold lookupOutcome. rewrite Hm, Hp, Hc.
  destruct (Z.leb_spec (strings.IndexRune repoName "/"%char) 0); [lia|].
  reflexivity.
Qed.

(** A failing mirror. *)
Lemma lookup_mirror_failure (s : Service) (repoName : string) (w : World) (e : error) :
  firstFailure s (Mirrors (Config s)) = Some e ->
  fst (lookupEndpoints s repoName w) = ([], Some e).
Proof.
  intros H. rewrite lookupEndpoints_run. unfold lookupOutcome. now rewrite H.
Qed.

(** A call that fails returns no candidates. *)
Lemma lookup_error_no_candidates (s : Service) (repoName : string) (w : World) (e : error) :
  snd (fst (lookupEndpoints s repoName w)) = Some e ->
  fst (fst (lookupEndpoints s repoName w)) = [].
Proof.
  rewrite lookupEndpoints_run. unfold lookupOutcome.
  destruct (firstFailure s _); [reflexivity|].
  destruct (strings.HasPrefix _ _); [discriminate|].
  destruct (_ <=? 0)%Z; [reflexivity|].
  destruct (trustPolicy s _); [discriminate | reflexivity].
Qed.

Lemma pushLoop_filter (allEndpoints endpoints : list APIEndpoint) :
  pushLoop allEndpoints endpoints =
  endpoints ++ filter (fun e => negb (Mirror e)) allEndpoints.
Proof.
  revert endpoints; induction allEndpoints as [|e l IH]; intros endpoints; simpl.
  - now rewrite app_nil_r.
  - destruct (Mirror e); simpl; rewrite IH; [reflexivity|].
    now rewrite <- app_assoc.
Qed.

(** [LookupPushEndpoints] is [lookupEndpoints] followed by the filter. *)
Lemma LookupPushEndpoints_run (s : Service) (repoName : string) (w : World) :
  LookupPushEndpoints s repoName w =
  ((filter (fun e => negb (Mirror e)) (fst (fst (lookupEndpoints s repoName w))),
    snd (fst (lookupEndpoints s repoName w))),
   snd (lookupEndpoints s repoName w)).
Proof.
  unfold LookupPushEndpoints, bind.
  pose proof (lookup_error_no_candidates s repoName w) as Hno.
  destruct (lookupEndpoints s repoName w) as [[eps [e|]] w']; simpl in *.
  - now rewrite (Hno e eq_refl).
  - unfold ret. now rewrite pushLoop_filter.
Qed.

(** What a caller observes of [lookupEndpoints] is [expected]. *)
Lemma observe_lookupEndpoints (s : Service) (repoName : string) (w : World) :
  observe (lookupEndpoints s repoName w) = expected s repoName.
Proof.
  rewrite lookupEndpoints_run. unfold lookupOutcome, expected, observe.
  destruct (firstFailure s (Mirrors (Config s))) as [e|] eqn:Hff; [reflexivity|].
  assert (Hms : forall w' hpost,
             heap w' = (heap w ++ [tlsconfig_ServerDefault])
                       ++ map snd (resolvedPrefix s (Mirrors (Config s))) ++ hpost ->
             map (view w') (mirrorCandidates (S (List.length (heap w))) (Mirrors (Config s))) =
             map (fun mc => withTrust (snd mc) (mirrorCandidate (fst mc) 0))
                 (resolvedPrefix s (Mirrors (Config s)))).
  { intros w' hpost Hh.
    replace (S (List.length (heap w)))
      with (List.length (heap w ++ [tlsconfig_ServerDefault]))
      by (rewrite length_app; simpl; lia).
    now apply mirrorCandidates_view with (hpost := hpost). }
  destruct (strings.HasPrefix repoName _).
  - simpl fst; simpl snd. rewrite map_app. f_equal. f_equal.
    + apply Hms with (hpost := []).
      rewrite heap_grow, app_nil_r, <- app_assoc. reflexivity.
    + set (w' := grow _ _ _).
      assert (Hd : deref w' (List.length (heap w)) = Some tlsconfig_ServerDefault).
      { generalize (deref_fresh w [] (map snd (resolvedPrefix s (Mirrors (Config s))))
                      tlsconfig_ServerDefault).
        simpl. rewrite Nat.add_0_r. intros H. apply H. }
      clearbody w'. unfold officialCandidates.
      destruct (String.eqb runtime_GOOS "linux"); simpl; unfold view, withTrust; simpl;
        now rewrite Hd.
  - destruct (_ <=? 0)%Z; [reflexivity|].
    destruct (trustPolicy s _) as [c|e]; [|reflexivity].
    simpl fst; simpl snd. rewrite map_app. f_equal. f_equal.
    + apply Hms with (hpost := [c]).
      rewrite heap_grow, <- !app_assoc. reflexivity.
    + set (w' := grow _ _ _).
      assert (Hd : deref w' (S (List.length (heap w)
                                + List.length (resolvedPrefix s (Mirrors (Config s))))) = Some c).
      { generalize (deref_fresh w
                      (tlsconfig_ServerDefault
                       :: map snd (resolvedPrefix s (Mirrors (Config s)))) [] c).
        simpl. rewrite length_map, Nat.add_succ_r. intros H. apply H. }
      clearbody w'. unfold hostCandidates.
      destruct (tls.InsecureSkipVerify c); simpl; unfold view, withTrust; simpl;
        now rewrite Hd.
Qed.

End Running.

(** ** The claims about endpoint resolution *)

Section Claims.

Context {ext : Externals}.

Lemma official_tail_not_mirror (p : ptr) :
  Forall (fun e => Mirror e = false) (officialCandidates p).
Proof.
  unfold officialCandidates.
  destruct (String.eqb runtime_GOOS "linux"); repeat constructor.
Qed.

Lemma host_tail_not_mirror (hostname : string) (p : ptr) (skipVerify : bool) :
  Forall (fun e => Mirror e = false) (hostCandidates hostname p skipVerify).
Proof.
  unfold hostCandidates. destruct skipVerify; repeat constructor.
Qed.

Lemma Forall2_length_eq {A B : Type} (R : A -> B -> Prop) (l : list A) (l' : list B) :
  Forall2 R l l' -> List.length l' = List.length l.
Proof.
  induction 1; simpl; auto.
Qed.

(** A name [host/rest] whose [host] is not empty and has no slash: the first
    slash sits behind [host], and the slice in front of it is [host]. *)
Lemma host_of_name (host rest : string) :
  host <> "" -> contains host "/"%char = false ->
  (0 < strings.IndexRune (host ++ "/" ++ rest) "/"%char)%Z /\
  slice_to (host ++ "/" ++ rest) (strings.IndexRune (host ++ "/" ++ rest) "/"%char) = host.
Proof.
  intros Hne Hns. unfold strings.IndexRune.
  change ("/" ++ rest)%string with (String "/"%char rest).
  rewrite IndexByte_first by assumption. split.
  - destruct host; [congruence | simpl; lia].
  - apply slice_to_host.
Qed.

(** C3: when resolution succeeds, the pull output begins with one candidate
    per configured mirror, in configured order, each with the mirror's URL,
    version v2, mirror flag true, trimHostname true and a pointer to the
    policy resolved for the host of that mirror; no candidate behind them is
    flagged as a mirror, so they are exactly as many as the mirrors. *)
Theorem C3_mirror_candidates_first
    (s : Service) (repoName : string) (w w' : World) (endpoints : list APIEndpoint) :
  LookupPullEndpoints s repoName w = ((endpoints, None), w') ->
  exists ms rest,
    endpoints = ms ++ rest /\
    List.length ms = List.length (Mirrors (Config s)) /\
    Forall2 (isMirrorCandidate s w') (Mirrors (Config s)) ms /\
    Forall (fun e => Mirror e = false) rest.
Proof.
  unfold LookupPullEndpoints. intros H.
  assert (Hm : mirrorsResolve s).
  { apply firstFailure_None.
    destruct (firstFailure s (Mirrors (Config s))) as [e|] eqn:Hff; [|reflexivity].
    pose proof (lookup_mirror_failure s repoName w e Hff) as Hf.
    rewrite H in Hf. discriminate. }
  destruct (strings.HasPrefix repoName (DefaultNamespace ++ "/")%string) eqn:Hp.
  - destruct (lookup_official s repoName w Hm Hp) as (ms & p & w'' & Heq & Hms & _).
    rewrite Heq in H. inversion H; subst.
    exists ms, (officialCandidates p). repeat split; auto.
    + eapply Forall2_length_eq; eauto.
    + apply official_tail_not_mirror.
  - rewrite lookupEndpoints_run in H. unfold lookupOutcome in H.
    apply firstFailure_None in Hm. rewrite Hm, Hp in H.
    destruct (Z.leb_spec (strings.IndexRune repoName "/"%char) 0) as [|Hi];
      [discriminate|].
    destruct (trustPolicy s _) as [c|e] eqn:Hc; [|discriminate].
    apply firstFailure_None in Hm.
    destruct (lookup_host s repoName w c Hm Hp Hi Hc) as (ms & p & w'' & Heq & Hms & _).
    rewrite lookupEndpoints_run in Heq. unfold lookupOutcome in Heq.
    apply firstFailure_None in Hm. rewrite Hm, Hp, Hc in Heq.
    destruct (Z.leb_spec (strings.IndexRune repoName "/"%char) 0); [lia|].
    rewrite Heq in H. inversion H; subst.
    exists ms, (hostCandidates (slice_to repoName (strings.IndexRune repoName "/"%char)) p
                  (tls.InsecureSkipVerify c)).
    repeat split; auto.
    + eapply Forall2_length_eq; eauto.
    + apply host_tail_not_mirror.
Qed.

Lemma mirror_candidate_URLs (s : Service) (w : World) (ms : list string)
    (es : list APIEndpoint) :
  Forall2 (isMirrorCandidate s w) ms es ->
  Forall (fun e => Mirror e = true /\ In (URL e) ms) es.
Proof.
  induction 1 as [|m e ms es Hme _ IH]; constructor.
  - destruct Hme as (Hu & _ & Hm & _). split; [assumption | left; congruence].
  - eapply Forall_impl; [|exact IH]. intros a [? ?]; split; [|right]; assumption.
Qed.

Lemma https_is_not_http (hostname : string) :
  strings.HasPrefix ("https://" ++ hostname) "http://" = false.
Proof.
  destruct (strings.HasPrefix ("https://" ++ hostname) "http://") eqn:H; [|reflexivity].
  apply HasPrefix_iff in H as [rest H]. discriminate.
Qed.

(** C1 (amended): for a name [host/rest] outside the official namespace whose
    host resolves to a verifying policy, provided that every configured
    mirror resolves, the pull output is the mirror candidates followed by
    exactly [https://host]
    as v2 (trimHostname, version header, versions [registry 2.0]) and
    [https://host] as v1, both pointing to the host's policy; a candidate of
    the output whose URL starts with [http://] is a mirror candidate
    carrying a configured mirror URL. *)
Theorem C1_secure_host_candidates
    (s : Service) (host rest : string) (w : World) (c : tls.Config) :
  host <> "" ->
  contains host "/"%char = false ->
  strings.HasPrefix (host ++ "/" ++ rest) (DefaultNamespace ++ "/") = false ->
  mirrorsResolve s ->
  trustPolicy s host = Ok c ->
  tls.InsecureSkipVerify c = false ->
  exists ms p w',
    LookupPullEndpoints s (host ++ "/" ++ rest) w =
    ((ms ++ [hostCandidateV2 "https://" host p; hostCandidateV1 "https://" host p],
      None), w') /\
    Forall2 (isMirrorCandidate s w') (Mirrors (Config s)) ms /\
    deref w' p = Some c /\
    Forall (fun e => strings.HasPrefix (URL e) "http://" = true ->
                     Mirror e = true /\ In (URL e) (Mirrors (Config s)))
           (ms ++ [hostCandidateV2 "https://" host p; hostCandidateV1 "https://" host p]).
Proof.
  intros Hne Hns Hp Hm Hc Hv.
  destruct (host_of_name host rest Hne Hns) as [Hi Hh].
  rewrite <- Hh in Hc.
  destruct (lookup_host s _ w c Hm Hp Hi Hc) as (ms & p & w' & Heq & Hms & Hd).
  rewrite Hh, Hv in Heq. unfold hostCandidates in Heq. rewrite app_nil_r in Heq.
  exists ms, p, w'. repeat split; auto.
  apply Forall_app. split.
  - eapply Forall_impl; [|exact (mirror_candidate_URLs _ _ _ _ Hms)].
    intros e He _. exact He.
  - constructor; [|constructor; [|constructor]]; intros H;
      unfold hostCandidateV2, hostCandidateV1 in H; cbn [URL] in H;
      rewrite https_is_not_http in H; discriminate.
Qed.

(** C2 (amended): for a name [host/rest] outside the official namespace
    whose host resolves to a policy with skip-verification set, provided
    that every configured mirror resolves, the pull output is the mirror
    candidates followed by exactly
    https v2, https v1, http v2, http v1, and all four hold the one pointer
    [p], which leads to that policy.  The call allocates the copy of the
    server defaults, one policy per mirror and a single policy for the
    host: none is computed a second time for the http candidates. *)
Theorem C2_insecure_host_candidates
    (s : Service) (host rest : string) (w : World) (c : tls.Config) :
  host <> "" ->
  contains host "/"%char = false ->
  strings.HasPrefix (host ++ "/" ++ rest) (DefaultNamespace ++ "/") = false ->
  mirrorsResolve s ->
  trustPolicy s host = Ok c ->
  tls.InsecureSkipVerify c = true ->
  exists ms p w',
    LookupPullEndpoints s (host ++ "/" ++ rest) w =
    ((ms ++ [hostCandidateV2 "https://" host p; hostCandidateV1 "https://" host p;
             hostCandidateV2 "http://" host p; hostCandidateV1 "http://" host p],
      None), w') /\
    Forall2 (isMirrorCandidate s w') (Mirrors (Config s)) ms /\
    deref w' p = Some c /\
    Forall (fun e => TLSConfig e = p)
           [hostCandidateV2 "https://" host p; hostCandidateV1 "https://" host p;
            hostCandidateV2 "http://" host p; hostCandidateV1 "http://" host p] /\
    exists cs, heap w' = heap w ++ cs ++ [c] /\
               List.length cs = S (List.length (Mirrors (Config s))).
Proof.
  intros Hne Hns Hp Hm Hc Hv.
  destruct (host_of_name host rest Hne Hns) as [Hi Hh].
  rewrite <- Hh in Hc.
  destruct (lookup_host s _ w c Hm Hp Hi Hc) as (ms & p & w' & Heq & Hms & Hd).
  pose proof (lookup_host_heap s _ w c Hm Hp Hi Hc) as Hheap.
  rewrite Heq in Hheap. cbn [snd] in Hheap.
  rewrite Hh, Hv in Heq.
  exists ms, p, w'. repeat split; auto.
  eexists. split; [exact Hheap|].
  cbn [List.length]. rewrite length_map, resolvedPrefix_length; [reflexivity|].
  now apply firstFailure_None.
Qed.

(** C4 (amended): for a name that begins with [library/], provided that
    every configured mirror resolves, the pull output is the mirror
    candidates followed by exactly
    the canonical v2 endpoint and, if and only if [runtime.GOOS] is [linux],
    the canonical v1 endpoint, both official, with trimHostname and a
    pointer to a copy of the server defaults.  Nothing is asked of the
    rest of the name or of any host's policy: the host steps are not
    reached. *)
Theorem C4_official_candidates (s : Service) (x : string) (w : World) :
  mirrorsResolve s ->
  exists ms p w',
    LookupPullEndpoints s ("library/" ++ x) w =
    ((ms ++ officialCandidate DefaultV2Registry APIVersion2 p
         :: (if String.eqb runtime_GOOS "linux"
             then [officialCandidate DefaultV1Registry APIVersion1 p]
             else []),
      None), w') /\
    Forall2 (isMirrorCandidate s w') (Mirrors (Config s)) ms /\
    deref w' p = Some tlsconfig_ServerDefault.
Proof.
  intros Hm.
  assert (Hp : strings.HasPrefix ("library/" ++ x) (DefaultNamespace ++ "/") = true)
    by (apply HasPrefix_iff; now exists x).
  destruct (lookup_official s _ w Hm Hp) as (ms & p & w' & Heq & Hms & Hd).
  exists ms, p, w'. auto.
Qed.

Lemma view_filter (w : World) (l : list APIEndpoint) :
  map (view w) (filter (fun e => negb (Mirror e)) l) =
  filter (fun c => negb (cMirror c)) (map (view w) l).
Proof.
  induction l as [|e l IH]; simpl; [reflexivity|].
  destruct (Mirror e); simpl; now rewrite IH.
Qed.

(** What a caller observes of [LookupPushEndpoints]. *)
Lemma observe_LookupPushEndpoints (s : Service) (repoName : string) (w : World) :
  observe (LookupPushEndpoints s repoName w) =
  (filter (fun c => negb (cMirror c)) (fst (expected s repoName)),
   snd (expected s repoName)).
Proof.
  rewrite LookupPushEndpoints_run, <- (observe_lookupEndpoints s repoName w).
  unfold observe; simpl. now rewrite view_filter.
Qed.

(** C5: run from the same state, [LookupPushEndpoints] returns the list of
    [LookupPullEndpoints] filtered to the candidates whose mirror flag is
    false (a filter keeps the order), with the same error and the same final
    state; run from any two states, the same holds of what the callers
    observe. *)
Theorem C5_push_is_pull_without_mirrors (s : Service) (repoName : string) (w : World) :
  LookupPushEndpoints s repoName w =
  ((filter (fun e => negb (Mirror e)) (fst (fst (LookupPullEndpoints s repoName w))),
    snd (fst (LookupPullEndpoints s repoName w))),
   snd (LookupPullEndpoints s repoName w))
  /\ forall w2 : World,
       observe (LookupPushEndpoints s repoName w) =
       (filter (fun c => negb (cMirror c))
               (fst (observe (LookupPullEndpoints s repoName w2))),
        snd (observe (LookupPullEndpoints s repoName w2))).
Proof.
  unfold LookupPullEndpoints. split.
  - apply LookupPushEndpoints_run.
  - intros w2. now rewrite observe_LookupPushEndpoints, observe_lookupEndpoints.
Qed.

(** C6: if the mirrors in front of [m] resolve and the trust resolution of
    [m] fails with [e] (in whatever state it is run), then both lookups
    return [e] and no candidates, whatever the name and whatever comes
    behind [m]. *)
Theorem C6_mirror_failure_aborts
    (s : Service) (repoName : string) (w w0 : World)
    (pre post : list string) (m : string) (e : error) :
  Mirrors (Config s) = pre ++ m :: post ->
  Forall (mirrorResolves s) pre ->
  fst (tlsConfigForMirror s m w0) = Err e ->
  fst (LookupPullEndpoints s repoName w) = ([], Some e) /\
  fst (LookupPushEndpoints s repoName w) = ([], Some e).
Proof.
  intros Hms Hpre Hm.
  assert (Hp : mirrorPolicy s m = Err e).
  { rewrite tlsConfigForMirror_run in Hm.
    destruct (mirrorPolicy s m); [discriminate | simpl in Hm; congruence]. }
  assert (Hff : firstFailure s (Mirrors (Config s)) = Some e)
    by (rewrite Hms; now apply firstFailure_split).
  pose proof (lookup_mirror_failure s repoName w e Hff) as Hl.
  split; [exact Hl|].
  rewrite LookupPushEndpoints_run. simpl. now rewrite Hl.
Qed.

(** C7 (amended): with every mirror resolving, a name that does not begin
    with [library/] and that has no slash, or has one as its first byte,
    makes [LookupPullEndpoints] return the invalid-name error and no
    candidates. *)
Theorem C7_invalid_name (s : Service) (repoName : string) (w : World) :
  mirrorsResolve s ->
  strings.HasPrefix repoName (DefaultNamespace ++ "/") = false ->
  contains repoName "/"%char = false \/ (exists rest, repoName = String "/"%char rest) ->
  fst (LookupPullEndpoints s repoName w) =
  ([], Some (fmt.Errorf_s "invalid repo name: missing '/':  " repoName)).
Proof.
  intros Hm Hp Hs. apply firstFailure_None in Hm.
  unfold LookupPullEndpoints. rewrite lookupEndpoints_run. unfold lookupOutcome.
  rewrite Hm, Hp.
  assert (Hi : (strings.IndexRune repoName "/"%char <= 0)%Z).
  { unfold strings.IndexRune. destruct Hs as [Hs | [rest ->]].
    - rewrite IndexByte_absent by assumption. lia.
    - simpl. lia. }
  destruct (Z.leb_spec (strings.IndexRune repoName "/"%char) 0); [reflexivity | lia].
Qed.

(** C8: what a caller observes of a lookup - the candidates in order, each
    with the policy its pointer leads to, and the error - is the same from
    whatever state the call starts, in particular from the state that an
    earlier call with the same name has left. *)
Theorem C8_deterministic (s : Service) (repoName : string) (w1 w2 : World) :
  observe (LookupPullEndpoints s repoName w1) = observe (LookupPullEndpoints s repoName w2)
  /\ observe (LookupPushEndpoints s repoName w1) = observe (LookupPushEndpoints s repoName w2)
  /\ observe (LookupPullEndpoints s repoName (snd (LookupPullEndpoints s repoName w1)))
     = observe (LookupPullEndpoints s repoName w1).
Proof.
  unfold LookupPullEndpoints.
  rewrite !observe_lookupEndpoints, !observe_LookupPushEndpoints. auto.
Qed.


(** C10 (amended): a name that begins with [library/], the bare [library/]
    included, never gets the invalid-name error: the error of the call is
    the error of the first failing mirror, and none if every mirror
    resolves; in that case the output is the mirror candidates followed by
    the canonical endpoints. *)
Theorem C10_official_prefix_before_validation (s : Service) (x : string) (w : World) :
  snd (fst (LookupPullEndpoints s ("library/" ++ x) w)) = firstFailure s (Mirrors (Config s))
  /\ (mirrorsResolve s ->
      exists ms p w',
        LookupPullEndpoints s ("library/" ++ x) w = ((ms ++ officialCandidates p, None), w') /\
        Forall2 (isMirrorCandidate s w') (Mirrors (Config s)) ms /\
        deref w' p = Some tlsconfig_ServerDefault).
Proof.
  assert (Hp : strings.HasPrefix ("library/" ++ x) (DefaultNamespace ++ "/") = true)
    by (apply HasPrefix_iff; now exists x).
  unfold LookupPullEndpoints. split.
  - rewrite lookupEndpoints_run. unfold lookupOutcome. rewrite Hp.
    now destruct (firstFailure s _).
  - intros Hm. now apply lookup_official.
Qed.

End Claims.

(** ** Further properties of the lookup *)

(** A string in which [c] occurs splits at its first [c]. *)
Lemma IndexByte_split (s : string) (c : ascii) :
  (0 <= strings.IndexByte s c)%Z ->
  exists host rest,
    s = (host ++ String c rest)%string /\ contains host c = false /\
    strings.IndexByte s c = Z.of_nat (String.length host).
Proof.
  induction s as [|d s IH]; simpl; [lia|].
  destruct (Ascii.eqb_spec d c) as [->|Hd]; intros Hi.
  - exists "", s. auto.
  - destruct (Z.ltb_spec (strings.IndexByte s c) 0) as [|Hs]; [lia|].
    destruct (IH Hs) as (host & rest & -> & Hc & Hlen).
    exists (String d host), rest. repeat split.
    + simpl. rewrite Hc. apply Ascii.eqb_neq in Hd. now rewrite Hd.
    + rewrite Hlen. simpl String.length. lia.
Qed.

(** Two strings that agree up to their first [c] have the same part in
    front of it. *)
Lemma first_segment_eq (c : ascii) (a b x y : string) :
  contains a c = false -> contains b c = false ->
  (a ++ String c x)%string = (b ++ String c y)%string -> a = b.
Proof.
  revert b; induction a as [|d a IH]; intros [|e b]; simpl; intros Ha Hb H.
  - reflexivity.
  - inversion H; subst. rewrite Ascii.eqb_refl in Hb. discriminate.
  - inversion H; subst. rewrite Ascii.eqb_refl in Ha. discriminate.
  - apply orb_false_iff in Ha as [_ Ha]. apply orb_false_iff in Hb as [_ Hb].
    inversion H; subst. f_equal. now apply IH.
Qed.

(** For a host segment without a slash, the prefix test of
    [lookupEndpoints] asks whether the host is the default namespace. *)
Lemma official_prefix_iff (host rest : string) :
  contains host "/"%char = false ->
  strings.HasPrefix (host ++ "/" ++ rest) (DefaultNamespace ++ "/") = true <->
  host = DefaultNamespace.
Proof.
  intros Hc. rewrite HasPrefix_iff. split.
  - intros [r Hr]. apply (first_segment_eq "/"%char host DefaultNamespace rest r Hc);
      [reflexivity | exact Hr].
  - intros ->. now exists rest.
Qed.

Section MoreOfLookup.

Context {ext : Externals}.

Lemma Forall2_right {A B : Type} (R : A -> B -> Prop) (P : B -> Prop)
    (l : list A) (l' : list B) :
  (forall a b, R a b -> P b) -> Forall2 R l l' -> Forall P l'.
Proof.
  intros HR. induction 1; constructor; eauto.
Qed.

Lemma filter_mirrors_tail (ms tail : list APIEndpoint) :
  Forall (fun e => Mirror e = true) ms ->
  Forall (fun e => Mirror e = false) tail ->
  filter (fun e => negb (Mirror e)) (ms ++ tail) = tail.
Proof.
  intros Hms Htail. rewrite filter_app.
  replace (filter _ ms) with (@nil APIEndpoint).
  - simpl. induction Htail as [|e l He _ IH]; simpl; [reflexivity|].
    now rewrite He, IH.
  - induction Hms as [|e l He _ IH]; simpl; [reflexivity|].
    now rewrite He.
Qed.

Lemma mirrorCandidates_plain (base : ptr) (ms : list string) :
  Forall (fun e => Versions e = [] /\ VersionHeader e = "")
         (mirrorCandidates base ms).
Proof.
  revert base; induction ms as [|m ms IH]; intros base; simpl; constructor; auto.
Qed.

(** The two ways in which [lookupEndpoints] ends: an error and no
    candidates, or the mirror candidates followed by the official or the
    host candidates, all of these with one live pointer. *)
Lemma lookup_cases (s : Service) (repoName : string) (w : World) :
  (exists e, fst (lookupEndpoints s repoName w) = ([], Some e)) \/
  (exists ms tail p w',
     lookupEndpoints s repoName w = ((ms ++ tail, None), w') /\
     Forall2 (isMirrorCandidate s w') (Mirrors (Config s)) ms /\
     Forall (fun e => Versions e = [] /\ VersionHeader e = "") ms /\
     (exists c, deref w' p = Some c /\
                (tail = officialCandidates p \/
                 exists hostname,
                   tail = hostCandidates hostname p (tls.InsecureSkipVerify c)))).
Proof.
  rewrite lookupEndpoints_run. unfold lookupOutcome.
  destruct (firstFailure s (Mirrors (Config s))) as [e|] eqn:Hff; [left; eexists; reflexivity|].
  assert (Hms : forall w' hpost,
             heap w' = (heap w ++ [tlsconfig_ServerDefault])
                       ++ map snd (resolvedPrefix s (Mirrors (Config s))) ++ hpost ->
             Forall2 (isMirrorCandidate s w') (Mirrors (Config s))
                     (mirrorCandidates (S (List.length (heap w))) (Mirrors (Config s)))).
  { intros w' hpost Hh.
    replace (S (List.length (heap w)))
      with (List.length (heap w ++ [tlsconfig_ServerDefault]))
      by (rewrite length_app; simpl; lia).
    apply mirrorCandidates_trust with (hpost := hpost); assumption. }
  destruct (strings.HasPrefix repoName _).
  - right. eexists _, _, _, _. split; [reflexivity|]. split; [|split].
    + apply Hms with (hpost := []).
      rewrite heap_grow, app_nil_r, <- app_assoc. reflexivity.
    + apply mirrorCandidates_plain.
    + exists tlsconfig_ServerDefault. split; [|now left].
      generalize (deref_fresh w [] (map snd (resolvedPrefix s (Mirrors (Config s))))
                    tlsconfig_ServerDefault).
      simpl. rewrite Nat.add_0_r. auto.
  - destruct (_ <=? 0)%Z; [left; eexists; reflexivity|].
    destruct (trustPolicy s _) as [c|e]; [|left; eexists; reflexivity].
    right. eexists _, _, _, _. split; [reflexivity|]. split; [|split].
    + apply Hms with (hpost := [c]).
      rewrite heap_grow, <- !app_assoc. reflexivity.
    + apply mirrorCandidates_plain.
    + exists c. split; [|right; eauto].
      generalize (deref_fresh w
                    (tlsconfig_ServerDefault
                     :: map snd (resolvedPrefix s (Mirrors (Config s)))) [] c).
      simpl. rewrite length_map, Nat.add_succ_r. auto.
Qed.

Lemma mirror_candidates_flagged (s : Service) (w : World) (ms : list string)
    (es : list APIEndpoint) :
  Forall2 (isMirrorCandidate s w) ms es -> Forall (fun e => Mirror e = true) es.
Proof.
  apply Forall2_right. intros m e (_ & _ & H & _). exact H.
Qed.

Lemma tail_not_mirror (tail : list APIEndpoint) (p : ptr) (skipVerify : bool) :
  tail = officialCandidates p \/
  (exists hostname, tail = hostCandidates hostname p skipVerify) ->
  Forall (fun e => Mirror e = false) tail /\ tail <> [].
Proof.
  intros [->|(h & ->)]; split.
  - apply official_tail_not_mirror.
  - discriminate.
  - apply host_tail_not_mirror.
  - discriminate.
Qed.

(** X1: for a name [host/rest] outside the official namespace, with every
    mirror resolving, a failure of the host's trust resolution makes both
    lookups return that error and no candidates, the mirror candidates
    collected before it included. *)
Theorem X1_host_trust_failure_aborts
    (s : Service) (host rest : string) (w w0 : World) (e : error) :
  host <> "" ->
  contains host "/"%char = false ->
  host <> DefaultNamespace ->
  mirrorsResolve s ->
  fst (Service_TLSConfig s host w0) = Err e ->
  fst (LookupPullEndpoints s (host ++ "/" ++ rest) w) = ([], Some e) /\
  fst (LookupPushEndpoints s (host ++ "/" ++ rest) w) = ([], Some e).
Proof.
  intros Hne Hns Hno Hm He.
  assert (Hp : strings.HasPrefix (host ++ "/" ++ rest) (DefaultNamespace ++ "/") = false).
  { destruct (strings.HasPrefix _ _) eqn:Hp; [|reflexivity].
    apply official_prefix_iff in Hp; [contradiction | assumption]. }
  assert (Hc : trustPolicy s host = Err e).
  { rewrite Service_TLSConfig_run in He.
    destruct (trustPolicy s host); simpl in He; [discriminate | congruence]. }
  destruct (host_of_name host rest Hne Hns) as [Hi Hh].
  assert (Hl : fst (lookupEndpoints s (host ++ "/" ++ rest) w) = ([], Some e)).
  { apply firstFailure_None in Hm.
    rewrite lookupEndpoints_run. unfold lookupOutcome. rewrite Hm, Hp, Hh, Hc.
    destruct (Z.leb_spec (strings.IndexRune (host ++ "/" ++ rest) "/"%char) 0);
      [lia | reflexivity]. }
  unfold LookupPullEndpoints. split; [exact Hl|].
  rewrite LookupPushEndpoints_run. cbn [fst snd]. now rewrite Hl.
Qed.

(** X2: a pull lookup succeeds exactly when every mirror resolves and the
    name either begins with [library/] or is [host/rest] with a host that is
    not empty, has no slash and resolves to a policy. *)
Theorem X2_success_iff (s : Service) (repoName : string) (w : World) :
  snd (fst (LookupPullEndpoints s repoName w)) = None <->
  mirrorsResolve s /\
  (strings.HasPrefix repoName (DefaultNamespace ++ "/") = true \/
   exists host rest c,
     repoName = (host ++ "/" ++ rest)%string /\ host <> "" /\
     contains host "/"%char = false /\ trustPolicy s host = Ok c).
Proof.
  unfold LookupPullEndpoints.
  change (snd (fst (lookupEndpoints s repoName w)))
    with (snd (observe (lookupEndpoints s repoName w))).
  rewrite observe_lookupEndpoints. unfold expected, mirrorsResolve.
  rewrite <- firstFailure_None. split.
  - destruct (firstFailure s _); [discriminate|].
    intros H. split; [reflexivity|].
    destruct (strings.HasPrefix repoName _); [now left | right].
    destruct (Z.leb_spec (strings.IndexRune repoName "/"%char) 0) as [|Hi];
      [discriminate|].
    destruct (trustPolicy s _) as [c|] eqn:Hc; [|discriminate].
    unfold strings.IndexRune in *.
    destruct (IndexByte_split repoName "/"%char) as (host & rest & -> & Hns & Hlen);
      [lia|].
    rewrite Hlen in Hc, Hi.
    change (String "/"%char rest) with ("/" ++ rest)%string in Hc.
    rewrite slice_to_host in Hc.
    exists host, rest, c. repeat split; auto.
    intros ->. simpl in Hi. lia.
  - intros [-> H].
    destruct (strings.HasPrefix repoName _) eqn:Hp; [reflexivity|].
    destruct H as [H | (host & rest & c & -> & Hne & Hns & Hc)]; [discriminate|].
    destruct (host_of_name host rest Hne Hns) as [Hi Hh].
    destruct (Z.leb_spec (strings.IndexRune (host ++ "/" ++ rest) "/"%char) 0); [lia|].
    now rewrite Hh, Hc.
Qed.

(** X3: a lookup is all or nothing: with an error, pull and push return no
    candidate; without one, both return at least one. *)
Theorem X3_all_or_nothing (s : Service) (repoName : string) (w : World) :
  match snd (fst (LookupPullEndpoints s repoName w)) with
  | Some e =>
      fst (LookupPullEndpoints s repoName w) = ([], Some e) /\
      fst (LookupPushEndpoints s repoName w) = ([], Some e)
  | None =>
      fst (fst (LookupPullEndpoints s repoName w)) <> [] /\
      fst (fst (LookupPushEndpoints s repoName w)) <> [] /\
      snd (fst (LookupPushEndpoints s repoName w)) = None
  end.
Proof.
  unfold LookupPullEndpoints. rewrite LookupPushEndpoints_run. cbn [fst snd].
  destruct (lookup_cases s repoName w)
    as [[e He] | (ms & tail & p & w' & Heq & Hms & _ & c & _ & Htail)].
  - rewrite He. cbn [fst snd]. auto.
  - rewrite Heq. cbn [fst snd].
    destruct (tail_not_mirror tail p _ Htail) as [Hnm Hne].
    rewrite (filter_mirrors_tail ms tail (mirror_candidates_flagged _ _ _ _ Hms) Hnm).
    repeat split; auto.
    destruct ms; simpl; [assumption | discriminate].
Qed.

(** X4: every candidate that a lookup returns has trimHostname set and a
    pointer to a policy that exists in the final state; a mirror candidate
    is v2 and not official; the list of versions is set only on a v2
    candidate that carries the version header. *)
Theorem X4_candidate_invariants (s : Service) (repoName : string) (w : World) :
  let good (w' : World) (e : APIEndpoint) :=
    TrimHostname e = true /\
    (exists c, deref w' (TLSConfig e) = Some c) /\
    (Mirror e = true -> Official e = false /\ Version e = APIVersion2) /\
    (Versions e <> [] ->
     Version e = APIVersion2 /\ VersionHeader e = DefaultRegistryVersionHeader) in
  Forall (good (snd (LookupPullEndpoints s repoName w)))
         (fst (fst (LookupPullEndpoints s repoName w))) /\
  Forall (good (snd (LookupPushEndpoints s repoName w)))
         (fst (fst (LookupPushEndpoints s repoName w))).
Proof.
  intros good. unfold LookupPullEndpoints. rewrite LookupPushEndpoints_run. cbn [fst snd].
  assert (H : Forall (good (snd (lookupEndpoints s repoName w)))
                     (fst (fst (lookupEndpoints s repoName w)))).
  { destruct (lookup_cases s repoName w)
      as [[e He] | (ms & tail & p & w' & Heq & Hms & Hpl & c0 & Hc0 & Htail)].
    - rewrite He. constructor.
    - rewrite Heq. cbn [fst snd]. apply Forall_app. split.
      + apply Forall_forall. intros e He.
        destruct (proj1 (Forall_forall _ _) Hpl e He) as [Hv Hh].
        destruct (proj1 (Forall_forall _ _)
                    (Forall2_right _ (fun e => exists m, isMirrorCandidate s w' m e) _ _
                       (fun m e0 H => ex_intro _ m H) Hms) e He)
          as (m & _ & Hver & _ & Ht & Ho & u & c & _ & _ & Hc).
        unfold good. repeat split; eauto; congruence.
      + destruct Htail as [->|(h & ->)].
        * unfold officialCandidates.
          destruct (String.eqb runtime_GOOS "linux");
            repeat (apply Forall_cons || apply Forall_nil);
            unfold good; cbn; repeat split; eauto; try discriminate; congruence.
        * unfold hostCandidates.
          destruct (tls.InsecureSkipVerify c0); cbn [app];
            repeat (apply Forall_cons || apply Forall_nil);
            unfold good; cbn; repeat split; eauto; try discriminate; congruence. }
  split; [exact H|].
  apply Forall_forall. intros e He. apply filter_In in He as [He _].
  revert e He. now apply Forall_forall.
Qed.

(** X5: the candidates and the error depend on the name only through its
    host segment: two names with the same host, not empty and without a
    slash, are observed alike, for pull and for push, whatever follows the
    first slash. *)
Theorem X5_only_the_host_matters
    (s : Service) (host rest1 rest2 : string) (w1 w2 : World) :
  host <> "" ->
  contains host "/"%char = false ->
  observe (LookupPullEndpoints s (host ++ "/" ++ rest1) w1) =
  observe (LookupPullEndpoints s (host ++ "/" ++ rest2) w2) /\
  observe (LookupPushEndpoints s (host ++ "/" ++ rest1) w1) =
  observe (LookupPushEndpoints s (host ++ "/" ++ rest2) w2).
Proof.
  intros Hne Hns. unfold LookupPullEndpoints.
  rewrite !observe_lookupEndpoints, !observe_LookupPushEndpoints.
  assert (H : expected s (host ++ "/" ++ rest1) = expected s (host ++ "/" ++ rest2)).
  { unfold expected.
    destruct (firstFailure s _); [reflexivity|].
    assert (Hp : strings.HasPrefix (host ++ "/" ++ rest1) (DefaultNamespace ++ "/") =
                 strings.HasPrefix (host ++ "/" ++ rest2) (DefaultNamespace ++ "/")).
    { destruct (strings.HasPrefix (host ++ "/" ++ rest1) _) eqn:H1;
        destruct (strings.HasPrefix (host ++ "/" ++ rest2) _) eqn:H2; try reflexivity.
      - apply official_prefix_iff in H1; [|assumption].
        apply (official_prefix_iff host rest2 Hns) in H1. congruence.
      - apply official_prefix_iff in H2; [|assumption].
        apply (official_prefix_iff host rest1 Hns) in H2. congruence. }
    rewrite Hp.
    destruct (strings.HasPrefix (host ++ "/" ++ rest2) _); [reflexivity|].
    destruct (host_of_name host rest1 Hne Hns) as [Hi1 Hh1].
    destruct (host_of_name host rest2 Hne Hns) as [Hi2 Hh2].
    rewrite Hh1, Hh2.
    destruct (Z.leb_spec (strings.IndexRune (host ++ "/" ++ rest1) "/"%char) 0); [lia|].
    destruct (Z.leb_spec (strings.IndexRune (host ++ "/" ++ rest2) "/"%char) 0); [lia|].
    reflexivity. }
  now rewrite H.
Qed.

(** X6: with every mirror resolving, a push lookup of a name that begins
    with [library/] returns exactly the canonical endpoints, the v1 one on
    [linux] only, and no mirror candidate. *)
Theorem X6_push_official (s : Service) (x : string) (w : World) :
  mirrorsResolve s ->
  exists p w',
    LookupPushEndpoints s ("library/" ++ x) w =
    ((officialCandidate DefaultV2Registry APIVersion2 p
        :: (if String.eqb runtime_GOOS "linux"
            then [officialCandidate DefaultV1Registry APIVersion1 p]
            else []),
      None), w') /\
    deref w' p = Some tlsconfig_ServerDefault.
Proof.
  intros Hm.
  assert (Hp : strings.HasPrefix ("library/" ++ x) (DefaultNamespace ++ "/") = true)
    by (apply HasPrefix_iff; now exists x).
  destruct (lookup_official s _ w Hm Hp) as (ms & p & w' & Heq & Hms & Hd).
  exists p, w'. split; [|exact Hd].
  rewrite LookupPushEndpoints_run, Heq. cbn [fst snd].
  rewrite (filter_mirrors_tail ms _ (mirror_candidates_flagged _ _ _ _ Hms)
             (official_tail_not_mirror p)).
  reflexivity.
Qed.

(** X7: with every mirror resolving, a push lookup of [host/rest] outside
    the official namespace returns exactly the candidates of the host, https
    v2 and v1 and, if the host's policy skips verification, http v2 and v1,
    all pointing to that policy, and no mirror candidate. *)
Theorem X7_push_host
    (s : Service) (host rest : string) (w : World) (c : tls.Config) :
  host <> "" ->
  contains host "/"%char = false ->
  host <> DefaultNamespace ->
  mirrorsResolve s ->
  trustPolicy s host = Ok c ->
  exists p w',
    LookupPushEndpoints s (host ++ "/" ++ rest) w =
    (([hostCandidateV2 "https://" host p; hostCandidateV1 "https://" host p]
      ++ (if tls.InsecureSkipVerify c
          then [hostCandidateV2 "http://" host p; hostCandidateV1 "http://" host p]
          else []),
      None), w') /\
    deref w' p = Some c.
Proof.
  intros Hne Hns Hno Hm Hc.
  assert (Hp : strings.HasPrefix (host ++ "/" ++ rest) (DefaultNamespace ++ "/") = false).
  { destruct (strings.HasPrefix _ _) eqn:Hp; [|reflexivity].
    apply official_prefix_iff in Hp; [contradiction | assumption]. }
  destruct (host_of_name host rest Hne Hns) as [Hi Hh].
  rewrite <- Hh in Hc.
  destruct (lookup_host s _ w c Hm Hp Hi Hc) as (ms & p & w' & Heq & Hms & Hd).
  rewrite Hh in Heq.
  exists p, w'. split; [|exact Hd].
  rewrite LookupPushEndpoints_run, Heq. cbn [fst snd].
  rewrite (filter_mirrors_tail ms _ (mirror_candidates_flagged _ _ _ _ Hms)
             (host_tail_not_mirror host p (tls.InsecureSkipVerify c))).
  reflexivity.
Qed.

Lemma ends_with {A : Type} (l m mid : list A) (x a f : A) :
  exists before, l ++ (x :: m ++ a :: mid ++ [f]) = l ++ before ++ [f].
Proof.
  exists (x :: m ++ a :: mid). simpl. now rewrite <- app_assoc.
Qed.

(** X8: when the log file opens and a pull lookup succeeds, the last line
    that the call leaves in the file is the [final endpoints] line, and it
    carries exactly the list that the call returns. *)
Theorem X8_log_ends_with_result
    (s : Service) (repoName : string) (w w' : World) (endpoints : list APIEndpoint) :
  logOpenable w = true ->
  LookupPullEndpoints s repoName w = ((endpoints, None), w') ->
  exists before,
    logLines w' = logLines w ++ before
                  ++ [logged "final endpoints: %v" (ArgEndpoints endpoints)].
Proof.
  unfold LookupPullEndpoints. intros Ho H.
  rewrite lookupEndpoints_run in H. unfold lookupOutcome in H.
  destruct (firstFailure s _); [discriminate|].
  destruct (strings.HasPrefix repoName _).
  - inversion H; subst. unfold grow; cbn [logLines]. rewrite Ho.
    apply ends_with.
  - destruct (_ <=? 0)%Z; [discriminate|].
    destruct (trustPolicy s _); [|discriminate].
    inversion H; subst. unfold grow; cbn [logLines]. rewrite Ho.
    apply ends_with.
Qed.

(** X9: a successful pull output is the mirror candidates followed by the
    push output: the filter of [LookupPushEndpoints] removes a prefix of the
    list, one candidate per configured mirror, and nothing else. *)
Theorem X9_pull_is_mirrors_then_push (s : Service) (repoName : string) (w : World) :
  snd (fst (LookupPullEndpoints s repoName w)) = None ->
  exists ms,
    fst (fst (LookupPullEndpoints s repoName w)) =
    ms ++ fst (fst (LookupPushEndpoints s repoName w)) /\
    Forall2 (isMirrorCandidate s (snd (LookupPullEndpoints s repoName w)))
            (Mirrors (Config s)) ms.
Proof.
  unfold LookupPullEndpoints. rewrite LookupPushEndpoints_run. cbn [fst snd].
  destruct (lookup_cases s repoName w)
    as [[e He] | (ms & tail & p & w' & Heq & Hms & _ & c & _ & Htail)].
  - rewrite He. discriminate.
  - rewrite Heq. cbn [fst snd]. intros _.
    destruct (tail_not_mirror tail p _ Htail) as [Hnm _].
    rewrite (filter_mirrors_tail ms tail (mirror_candidates_flagged _ _ _ _ Hms) Hnm).
    exists ms. auto.
Qed.

(** X10: a lookup never offers plain HTTP for a host whose certificates are
    to be verified: a returned candidate that is neither a mirror nor
    official and whose URL starts with [http://] points to a policy with
    [InsecureSkipVerify] set. *)
Theorem X10_plain_http_only_when_skipping (s : Service) (repoName : string) (w : World) :
  Forall (fun e =>
            Mirror e = false -> Official e = false ->
            strings.HasPrefix (URL e) "http://" = true ->
            exists c, deref (snd (LookupPullEndpoints s repoName w)) (TLSConfig e) = Some c /\
                      tls.InsecureSkipVerify c = true)
         (fst (fst (LookupPullEndpoints s repoName w))).
Proof.
  unfold LookupPullEndpoints.
  destruct (lookup_cases s repoName w)
    as [[e He] | (ms & tail & p & w' & Heq & Hms & _ & c & Hc & Htail)].
  - rewrite He. constructor.
  - rewrite Heq. cbn [fst snd]. apply Forall_app. split.
    + eapply Forall_impl; [|exact (mirror_candidates_flagged _ _ _ _ Hms)].
      intros e Hm Hn. congruence.
    + destruct Htail as [->|(h & ->)].
      * unfold officialCandidates.
        destruct (String.eqb runtime_GOOS "linux");
          repeat (apply Forall_cons || apply Forall_nil); cbn; intros; discriminate.
      * unfold hostCandidates.
        destruct (tls.InsecureSkipVerify c) eqn:Hk; cbn [app];
          repeat (apply Forall_cons || apply Forall_nil);
          unfold hostCandidateV2, hostCandidateV1; cbn [URL TLSConfig];
          intros _ _ Hu; try (rewrite https_is_not_http in Hu; discriminate);
          eauto.
Qed.

End MoreOfLookup.

(** ** Authentication *)

Section AuthenticationFacts.

Context {ext : Externals} {aext : AuthExternals}.

(** X11: credentials without a server address are handled as credentials for
    [IndexServer]: the two calls either end alike in everything, or both
    fail before the login with the same error and the same outside, each
    leaving its credentials untouched. *)
Theorem X11_auth_default_address
    (Login : LoginFunction) (s : Service) (creds : Credentials) (net : Net) :
  let blank := {| ServerAddress := ""; credentials := creds |} in
  let official := {| ServerAddress := IndexServer; credentials := creds |} in
  Service_Auth Login s blank net = Service_Auth Login s official net \/
  exists e net',
    Service_Auth Login s blank net = ((("", Some e), blank), net') /\
    Service_Auth Login s official net = ((("", Some e), official), net').
Proof.
  intros blank official. unfold Service_Auth. cbn [ServerAddress blank official].
  rewrite String.eqb_refl.
  assert (Ha : (if String.eqb IndexServer "" then IndexServer else IndexServer) = IndexServer)
    by now destruct (String.eqb IndexServer "").
  rewrite Ha.
  destruct (Service_ResolveIndex s IndexServer) as [index|e]; [|right; eauto].
  destruct (NewEndpoint index net) as [[endpoint|e] net1]; [left; reflexivity | right; eauto].
Qed.

(** X12: when the index of the address does not resolve, or its endpoint
    cannot be built, [Auth] returns that error with an empty status and
    leaves the caller's credentials as they were; [Login] has no part in
    the outcome. *)
Theorem X12_auth_failure_keeps_credentials
    (Login Login' : LoginFunction) (s : Service) (authConfig : AuthConfig)
    (net : Net) (e : error) :
  let addr := if String.eqb (ServerAddress authConfig) "" then IndexServer
              else ServerAddress authConfig in
  Service_ResolveIndex s addr = Err e \/
  (exists index, Service_ResolveIndex s addr = Ok index /\
                 fst (NewEndpoint index net) = Err e) ->
  fst (Service_Auth Login s authConfig net) = (("", Some e), authConfig) /\
  Service_Auth Login s authConfig net = Service_Auth Login' s authConfig net.
Proof.
  intros addr H. unfold Service_Auth. fold addr.
  destruct H as [-> | (index & -> & He)]; [split; reflexivity|].
  destruct (NewEndpoint index net) as [[endpoint|e'] net1]; simpl in He;
    [discriminate|].
  inversion He; subst. split; reflexivity.
Qed.

End AuthenticationFacts.

(** ** The claims on the sample configuration *)

#[local] Existing Instance Sample.linux.

Ltac resolve_mirrors :=
  unfold mirrorsResolve; cbn;
  repeat (constructor; [eexists; reflexivity|]); constructor.

Lemma C1_witness :
  exists ms p w',
    LookupPullEndpoints Sample.mirrored ("example.com" ++ "/" ++ "app") Sample.world0 =
    ((ms ++ [hostCandidateV2 "https://" "example.com" p;
             hostCandidateV1 "https://" "example.com" p], None), w') /\
    Forall2 (isMirrorCandidate Sample.mirrored w') (Mirrors (Config Sample.mirrored)) ms /\
    deref w' p = Some Sample.verifying /\
    Forall (fun e => strings.HasPrefix (URL e) "http://" = true ->
                     Mirror e = true /\ In (URL e) (Mirrors (Config Sample.mirrored)))
           (ms ++ [hostCandidateV2 "https://" "example.com" p;
                   hostCandidateV1 "https://" "example.com" p]).
Proof.
  apply (C1_secure_host_candidates Sample.mirrored "example.com" "app"
           Sample.world0 Sample.verifying);
    [discriminate | reflexivity | reflexivity | resolve_mirrors | reflexivity | reflexivity].
Defined.

(** C1 as stated fails in two ways.  With the mirror [http://10.0.0.1:5000]
    configured, the output for the secure host [example.com] holds a
    candidate whose URL starts with [http://].  With a mirror whose trust
    resolution fails, the same name gets that mirror's error and no
    candidate at all. *)
Lemma C1_counterexample :
  (mirrorsResolve Sample.mirrored /\
   trustPolicy Sample.mirrored "example.com" = Ok Sample.verifying /\
   tls.InsecureSkipVerify Sample.verifying = false /\
   strings.HasPrefix "example.com/app" (DefaultNamespace ++ "/") = false /\
   fst (LookupPullEndpoints Sample.mirrored "example.com/app" Sample.world0) =
   ([mirrorCandidate "https://mirror.example.com" 1;
     mirrorCandidate "http://10.0.0.1:5000" 2;
     hostCandidateV2 "https://" "example.com" 3;
     hostCandidateV1 "https://" "example.com" 3], None) /\
   strings.HasPrefix (URL (mirrorCandidate "http://10.0.0.1:5000" 2)) "http://" = true)
  /\
  (trustPolicy Sample.badMirror "example.com" = Ok Sample.verifying /\
   tls.InsecureSkipVerify Sample.verifying = false /\
   fst (LookupPullEndpoints Sample.badMirror "example.com/app" Sample.world0) =
   ([], Some (certs_Error "badcerts.example.com: malformed certificate"))).
Proof.
  repeat split; try reflexivity. resolve_mirrors.
Qed.

Lemma C2_witness :
  exists ms p w',
    LookupPullEndpoints Sample.mirrored ("insecure.example.com" ++ "/" ++ "app")
      Sample.world0 =
    ((ms ++ [hostCandidateV2 "https://" "insecure.example.com" p;
             hostCandidateV1 "https://" "insecure.example.com" p;
             hostCandidateV2 "http://" "insecure.example.com" p;
             hostCandidateV1 "http://" "insecure.example.com" p], None), w') /\
    Forall2 (isMirrorCandidate Sample.mirrored w') (Mirrors (Config Sample.mirrored)) ms /\
    deref w' p = Some Sample.skipping /\
    Forall (fun e => TLSConfig e = p)
           [hostCandidateV2 "https://" "insecure.example.com" p;
            hostCandidateV1 "https://" "insecure.example.com" p;
            hostCandidateV2 "http://" "insecure.example.com" p;
            hostCandidateV1 "http://" "insecure.example.com" p] /\
    exists cs, heap w' = heap Sample.world0 ++ cs ++ [Sample.skipping] /\
               List.length cs = S (List.length (Mirrors (Config Sample.mirrored))).
Proof.
  apply (C2_insecure_host_candidates Sample.mirrored "insecure.example.com" "app"
           Sample.world0 Sample.skipping);
    [discriminate | reflexivity | reflexivity | resolve_mirrors | reflexivity | reflexivity].
Defined.

(** C2 as stated fails: with a mirror whose trust resolution fails, the
    name of an insecure host gets that mirror's error and none of the four
    candidates. *)
Lemma C2_counterexample :
  trustPolicy Sample.badMirrorInsecure "insecure.example.com" = Ok Sample.skipping /\
  tls.InsecureSkipVerify Sample.skipping = true /\
  strings.HasPrefix "insecure.example.com/app" (DefaultNamespace ++ "/") = false /\
  fst (LookupPullEndpoints Sample.badMirrorInsecure "insecure.example.com/app"
         Sample.world0) =
  ([], Some (certs_Error "badcerts.example.com: malformed certificate")).
Proof.
  repeat split; reflexivity.
Qed.

Lemma C3_witness :
  exists ms rest,
    fst (fst (LookupPullEndpoints Sample.mirrored "example.com/app" Sample.world0)) =
    ms ++ rest /\
    List.length ms = List.length (Mirrors (Config Sample.mirrored)) /\
    Forall2 (isMirrorCandidate Sample.mirrored
               (snd (LookupPullEndpoints Sample.mirrored "example.com/app" Sample.world0)))
            (Mirrors (Config Sample.mirrored)) ms /\
    Forall (fun e => Mirror e = false) rest.
Proof.
  apply (C3_mirror_candidates_first Sample.mirrored "example.com/app" Sample.world0).
  reflexivity.
Defined.

Lemma C4_witness :
  exists ms p w',
    LookupPullEndpoints Sample.mirrored ("library/" ++ "ubuntu") Sample.world0 =
    ((ms ++ officialCandidate DefaultV2Registry APIVersion2 p
         :: (if String.eqb runtime_GOOS "linux"
             then [officialCandidate DefaultV1Registry APIVersion1 p]
             else []),
      None), w') /\
    Forall2 (isMirrorCandidate Sample.mirrored w') (Mirrors (Config Sample.mirrored)) ms /\
    deref w' p = Some tlsconfig_ServerDefault.
Proof.
  apply (C4_official_candidates Sample.mirrored "ubuntu" Sample.world0).
  resolve_mirrors.
Defined.

(** C4 as stated fails: with a mirror whose trust resolution fails, a name
    that begins with [library/] gets that mirror's error and no canonical
    endpoint. *)
Lemma C4_counterexample :
  strings.HasPrefix "library/redis" (DefaultNamespace ++ "/") = true /\
  LookupPullEndpoints Sample.badMirror "library/redis" Sample.world0 =
  (([], Some (certs_Error "badcerts.example.com: malformed certificate")),
   snd (LookupPullEndpoints Sample.badMirror "library/redis" Sample.world0)) /\
  fst (fst (LookupPullEndpoints Sample.badMirror "library/redis" Sample.world0)) = [].
Proof.
  repeat split; reflexivity.
Qed.

Lemma C6_witness :
  fst (LookupPullEndpoints Sample.badMirror "example.com/app" Sample.world0) =
  ([], Some (certs_Error "badcerts.example.com: malformed certificate")) /\
  fst (LookupPushEndpoints Sample.badMirror "example.com/app" Sample.world0) =
  ([], Some (certs_Error "badcerts.example.com: malformed certificate")).
Proof.
  apply (C6_mirror_failure_aborts Sample.badMirror "example.com/app"
           Sample.world0 Sample.world0
           ["https://mirror.example.com"] ["https://other.example.com"]
           "https://badcerts.example.com");
    [reflexivity | repeat constructor; eexists; reflexivity | reflexivity].
Defined.

Lemma C7_witness :
  fst (LookupPullEndpoints Sample.mirrored "noSlashHere" Sample.world0) =
  ([], Some (fmt.Errorf_s "invalid repo name: missing '/':  " "noSlashHere")) /\
  fst (LookupPullEndpoints Sample.mirrored "/leadingslash" Sample.world0) =
  ([], Some (fmt.Errorf_s "invalid repo name: missing '/':  " "/leadingslash")).
Proof.
  split.
  - apply (C7_invalid_name Sample.mirrored "noSlashHere" Sample.world0);
      [resolve_mirrors | reflexivity | left; reflexivity].
  - apply (C7_invalid_name Sample.mirrored "/leadingslash" Sample.world0);
      [resolve_mirrors | reflexivity | right; eexists; reflexivity].
Defined.

(** C7 as stated fails: with a mirror whose trust resolution fails, the
    name [noSlashHere] gets the mirror's error, not the invalid-name
    error. *)
Lemma C7_counterexample :
  strings.HasPrefix "noSlashHere" (DefaultNamespace ++ "/") = false /\
  contains "noSlashHere" "/"%char = false /\
  fst (LookupPullEndpoints Sample.badMirror "noSlashHere" Sample.world0) =
  ([], Some (certs_Error "badcerts.example.com: malformed certificate")) /\
  fst (LookupPullEndpoints Sample.badMirror "noSlashHere" Sample.world0) <>
  ([], Some (fmt.Errorf_s "invalid repo name: missing '/':  " "noSlashHere")).
Proof.
  repeat split; try reflexivity. discriminate.
Qed.


Lemma C10_witness :
  exists ms p w',
    LookupPullEndpoints Sample.mirrored ("library/" ++ "") Sample.world0 =
    ((ms ++ officialCandidates p, None), w') /\
    Forall2 (isMirrorCandidate Sample.mirrored w') (Mirrors (Config Sample.mirrored)) ms /\
    deref w' p = Some tlsconfig_ServerDefault.
Proof.
  apply (C10_official_prefix_before_validation Sample.mirrored "" Sample.world0).
  resolve_mirrors.
Defined.

(** C10 as stated fails: with a mirror whose trust resolution fails, the
    official name [library/ubuntu] does not resolve. *)
Lemma C10_counterexample :
  strings.HasPrefix "library/ubuntu" (DefaultNamespace ++ "/") = true /\
  fst (LookupPullEndpoints Sample.badMirror "library/ubuntu" Sample.world0) =
  ([], Some (certs_Error "badcerts.example.com: malformed certificate")).
Proof.
  split; reflexivity.
Qed.

(** ** The further properties on the sample configuration *)

Lemma X1_witness :
  fst (LookupPullEndpoints Sample.mirrored ("badcerts.example.com" ++ "/" ++ "app")
         Sample.world0) =
  ([], Some (certs_Error "badcerts.example.com: malformed certificate")) /\
  fst (LookupPushEndpoints Sample.mirrored ("badcerts.example.com" ++ "/" ++ "app")
         Sample.world0) =
  ([], Some (certs_Error "badcerts.example.com: malformed certificate")).
Proof.
  apply (X1_host_trust_failure_aborts Sample.mirrored "badcerts.example.com" "app"
           Sample.world0 Sample.world0);
    [discriminate | reflexivity | discriminate | resolve_mirrors | reflexivity].
Defined.

Lemma X5_witness :
  observe (LookupPullEndpoints Sample.mirrored ("insecure.example.com" ++ "/" ++ "app")
             Sample.world0) =
  observe (LookupPullEndpoints Sample.mirrored
             ("insecure.example.com" ++ "/" ++ "team/app/v2") Sample.world0) /\
  observe (LookupPushEndpoints Sample.mirrored ("insecure.example.com" ++ "/" ++ "app")
             Sample.world0) =
  observe (LookupPushEndpoints Sample.mirrored
             ("insecure.example.com" ++ "/" ++ "team/app/v2") Sample.world0).
Proof.
  apply (X5_only_the_host_matters Sample.mirrored "insecure.example.com" "app"
           "team/app/v2" Sample.world0 Sample.world0);
    [discriminate | reflexivity].
Defined.

Lemma X6_witness :
  exists p w',
    LookupPushEndpoints Sample.mirrored ("library/" ++ "ubuntu") Sample.world0 =
    ((officialCandidate DefaultV2Registry APIVersion2 p
        :: (if String.eqb runtime_GOOS "linux"
            then [officialCandidate DefaultV1Registry APIVersion1 p]
            else []),
      None), w') /\
    deref w' p = Some tlsconfig_ServerDefault.
Proof.
  apply (X6_push_official Sample.mirrored "ubuntu" Sample.world0). resolve_mirrors.
Defined.

Lemma X7_witness :
  exists p w',
    LookupPushEndpoints Sample.mirrored ("insecure.example.com" ++ "/" ++ "app")
      Sample.world0 =
    (([hostCandidateV2 "https://" "insecure.example.com" p;
       hostCandidateV1 "https://" "insecure.example.com" p]
      ++ (if tls.InsecureSkipVerify Sample.skipping
          then [hostCandidateV2 "http://" "insecure.example.com" p;
                hostCandidateV1 "http://" "insecure.example.com" p]
          else []),
      None), w') /\
    deref w' p = Some Sample.skipping.
Proof.
  apply (X7_push_host Sample.mirrored "insecure.example.com" "app" Sample.world0
           Sample.skipping);
    [discriminate | reflexivity | discriminate | resolve_mirrors | reflexivity].
Defined.

Lemma X8_witness :
  exists before,
    logLines (snd (LookupPullEndpoints Sample.mirrored "example.com/app" Sample.world0)) =
    logLines Sample.world0 ++ before
    ++ [logged "final endpoints: %v"
          (ArgEndpoints
             (fst (fst (LookupPullEndpoints Sample.mirrored "example.com/app"
                          Sample.world0))))].
Proof.
  apply (X8_log_ends_with_result Sample.mirrored "example.com/app" Sample.world0);
    reflexivity.
Defined.

Lemma X12_witness :
  fst (@Service_Auth Sample.linux SampleAuth.externals SampleAuth.login Sample.plain
         (SampleAuth.alice "down.example.com") []) =
  (("", Some (errorString "down.example.com: no route to host")),
   SampleAuth.alice "down.example.com") /\
  @Service_Auth Sample.linux SampleAuth.externals SampleAuth.login Sample.plain
    (SampleAuth.alice "down.example.com") [] =
  @Service_Auth Sample.linux SampleAuth.externals
    (fun authConfig _ net => ((("", None), authConfig), net)) Sample.plain
    (SampleAuth.alice "down.example.com") [].
Proof.
  apply (@X12_auth_failure_keeps_credentials Sample.linux SampleAuth.externals).
  right. exists "down.example.com". split; reflexivity.
Defined.

Lemma X9_witness :
  exists ms,
    fst (fst (LookupPullEndpoints Sample.mirrored "insecure.example.com/app" Sample.world0)) =
    ms ++ fst (fst (LookupPushEndpoints Sample.mirrored "insecure.example.com/app"
                      Sample.world0)) /\
    Forall2 (isMirrorCandidate Sample.mirrored
               (snd (LookupPullEndpoints Sample.mirrored "insecure.example.com/app"
                       Sample.world0)))
            (Mirrors (Config Sample.mirrored)) ms.
Proof.
  apply (X9_pull_is_mirrors_then_push Sample.mirrored "insecure.example.com/app"
           Sample.world0).
  reflexivity.
Defined.
